(** * TrendRadar: the AI hotspot export ([trendradar/ai_hotspots.py])

  A shallow embedding of the module that extracts the hotspots of a day
  that are new with respect to the day before, renders them as text and
  computes where the text is stored, with the properties of its
  specification stated and proved over the embedding.

  Conventions of the embedding.
  - A Python [str] is a [string] whose characters are the code points
    below 256, one [ascii] per code point; the character-dependent
    builtins ([str.strip], [str.lower]) are exact on that range.  Text the
    module only copies (the Chinese header lines) is carried as bytes.
  - A Python [int] is a [Z].
  - A [NewsItem] is a mutable object: the snapshot holds references
    ([ref]) into a [heap], so that the write [it.source_name = ...] of the
    flattener is seen through every alias of the object.
  - A [dict] iterated in insertion order is an association list; a [dict]
    used for lookup only is a [gmap]; a [set] is a [gset].
  - The collaborators [clean_title] and [normalize_url] live in other
    modules of the repository; they are taken as parameters.
  - The module reaches the file system through two calls of [pathlib];
    they are an interface ([FileSystemOps]), with a POSIX file system
    ([Posix]) as an instance to run the module. *)

From Stdlib Require Import ZArith String Ascii DecimalString DecimalZ DecimalPos.
From stdpp Require Import base option list sorting gmap sets strings.

Local Open Scope string_scope.
Local Open Scope Z_scope.
Local Open Scope list_scope.

(** ** Python builtins used by the module *)

Module Py.

(** [str.isspace] on one code point below 256. *)
Definition is_space (c : ascii) : bool :=
  let n := N_of_ascii c in
  ((9 <=? n) && (n <=? 13) || (28 <=? n) && (n <=? 32)
   || (n =? 133) || (n =? 160))%N.

Fixpoint lstrip_by (p : ascii → bool) (s : string) : string :=
  match s with
  | String c s' => if p c then lstrip_by p s' else s
  | EmptyString => EmptyString
  end.

Definition rstrip_by (p : ascii → bool) (s : string) : string :=
  String.rev (lstrip_by p (String.rev s)).

Definition strip_by (p : ascii → bool) (s : string) : string :=
  rstrip_by p (lstrip_by p s).

(** [s.strip()] *)
Definition strip : string → string := strip_by is_space.

(** [s.strip(chars)] *)
Definition strip_chars (chars : list ascii) : string → string :=
  strip_by (λ c, bool_decide (c ∈ chars)).

(** [str.lower] on one code point below 256: the letters A-Z and the
    capital letters of Latin-1 (0xC0-0xDE without the sign 0xD7). *)
Definition lower_char (c : ascii) : ascii :=
  let n := N_of_ascii c in
  if ((65 <=? n) && (n <=? 90)
      || (192 <=? n) && (n <=? 222) && negb (n =? 215))%N
  then ascii_of_N (n + 32) else c.

Fixpoint lower (s : string) : string :=
  match s with
  | String c s' => String (lower_char c) (lower s')
  | EmptyString => EmptyString
  end.

(** Truth value of a string: [bool(s)]. *)
Definition truthy (s : string) : bool :=
  match s with EmptyString => false | String _ _ => true end.

(** [o or d] where [o] is a string or [None]. *)
Definition or_else (o : option string) (d : string) : string :=
  match o with
  | Some s => if truthy s then s else d
  | None => d
  end.

(** [s.split(sep, maxsplit)] for a separator of one character. *)
Fixpoint split (sep : ascii) (maxsplit : nat) (s : string) : list string :=
  match s with
  | EmptyString => [EmptyString]
  | String c s' =>
      match maxsplit, Ascii.eqb c sep with
      | S n, true => EmptyString :: split sep n s'
      | _, _ =>
          match split sep maxsplit s' with
          | piece :: rest => String c piece :: rest
          | [] => [String c EmptyString]
          end
      end
  end.

(** [s.split(sep)]: no bound on the number of splits. *)
Definition split_all (sep : ascii) (s : string) : list string :=
  split sep (String.length s) s.

(** [sep.join(parts)] *)
Fixpoint join (sep : string) (parts : list string) : string :=
  match parts with
  | [] => ""
  | [p] => p
  | p :: rest => p +:+ sep +:+ join sep rest
  end.

(** [str(n)] of an [int], also what an f-string prints. *)
Definition str_of_int (n : Z) : string := NilZero.string_of_int (Z.to_int n).

(** [enumerate(l, start)] *)
Fixpoint enumerate {A} (l : list A) (start : Z) : list (Z * A) :=
  match l with
  | [] => []
  | x :: l' => (start, x) :: enumerate l' (start + 1)
  end.

(** [l[:n]] for an [int] bound [n ≥ 0]. *)
Definition slice_to {A} (l : list A) (n : Z) : list A := take (Z.to_nat n) l.

(** [o or d] where [o] is an [int] or [None]: zero is false. *)
Definition int_or (o : option Z) (d : Z) : Z :=
  match o with
  | Some n => if (n =? 0)%Z then d else n
  | None => d
  end.

(** Tuple unpacking [a, b, c = l]; [None] is the [ValueError] raised when
    [l] does not have exactly three elements. *)
Definition unpack3 {A} (l : list A) : option (A * A * A) :=
  match l with
  | [a; b; c] => Some (a, b, c)
  | _ => None
  end.

(** Number of occurrences of a character: [s.count(c)]. *)
Fixpoint count (c : ascii) (s : string) : nat :=
  match s with
  | EmptyString => 0%nat
  | String c' s' => ((if Ascii.eqb c' c then 1 else 0) + count c s')%nat
  end.

(** The sort of [list.sort(key=...)]: it is stable, so its result is
    the one stable insertion gives.  [lt] is [<] on the keys. *)
Section Sort.
Context {A : Type} (lt : A → A → bool).

Fixpoint insert (x : A) (l : list A) : list A :=
  match l with
  | [] => [x]
  | y :: l' => if lt y x then y :: insert x l' else x :: l
  end.

Definition sort (l : list A) : list A := foldr insert [] l.
End Sort.

End Py.

(** ** [pathlib] paths, POSIX flavour

    A path is its root (empty, [/] or [//]) and its components;
    parsing drops empty components and [.] components. *)

Module Path.

Record t := mk { root : string; parts : list string }.

Definition is_absolute (s : string) : bool :=
  match s with String "/" _ => true | _ => false end.

Definition root_of (s : string) : string :=
  match s with
  | String "/" (String "/" (String "/" _)) => "/"
  | String "/" (String "/" _) => "//"
  | String "/" _ => "/"
  | _ => ""
  end.

Definition component (c : string) : bool :=
  negb (String.eqb c "") && negb (String.eqb c ".").

(** [Path(s)] *)
Definition parse (s : string) : t :=
  mk (root_of s) (List.filter component (Py.split_all "/" s)).

(** [p / s] *)
Definition div (p : t) (s : string) : t :=
  if is_absolute s then parse s
  else mk (root p) (parts p ++ parts (parse s)).

(** [str(p)] *)
Definition str (p : t) : string :=
  match root p, parts p with
  | EmptyString, [] => "."
  | r, ps => r +:+ Py.join "/" ps
  end.

End Path.

(** ** Exceptions and the file system

    A call that touches the file system takes the state of the file system
    and returns the state it leaves together with its value or the
    exception it raises.  [NameTooLongError] is the [OSError] of
    [ENAMETOOLONG], which has no class of its own. *)

Inductive exception :=
  | ValueError
  | FileNotFoundError
  | NotADirectoryError
  | FileExistsError
  | IsADirectoryError
  | NameTooLongError.

Inductive result (A : Type) :=
  | Ok (a : A)
  | Raise (e : exception).
Arguments Ok {A} a.
Arguments Raise {A} e.

Definition io (FS A : Type) : Type := FS → FS * result A.

#[global] Instance io_ret {FS} : MRet (io FS) := λ A a fs, (fs, Ok a).

#[global] Instance io_bind {FS} : MBind (io FS) := λ A B f m fs,
  match m fs with
  | (fs', Ok a) => f a fs'
  | (fs', Raise e) => (fs', Raise e)
  end.

Definition raise {FS A} (e : exception) : io FS A := λ fs, (fs, Raise e).

(** The two calls of [pathlib] the module makes,
    [p.mkdir(parents=True, exist_ok=True)] and [p.write_text(content)]:
    what they do is the business of the file system, not of the module. *)
Class FileSystemOps (FS : Type) := {
  path_mkdir : Path.t → io FS unit;
  path_write_text : Path.t → string → io FS unit;
}.

(** A POSIX file system, as Linux has it, the process being allowed every
    access and the disk having neither links nor an end: the directories
    and the regular files, under their absolute paths, and the working
    directory.  The root is a directory. *)
Module Posix.

Inductive node :=
  | Dir
  | File (text : string).

Record t := mk {
  cwd : list string;
  nodes : gmap (list string) node;
}.

Definition node_at (fs : t) (p : list string) : option node :=
  match p with
  | [] => Some Dir
  | _ => nodes fs !! p
  end.

(** Where the resolution of a path starts. *)
Definition start (fs : t) (p : Path.t) : list string :=
  match Path.root p with
  | EmptyString => cwd fs
  | _ => []
  end.

(** The bytes of a string in UTF-8: two for a code point from 128 on. *)
Fixpoint byte_length (s : string) : nat :=
  match s with
  | EmptyString => 0%nat
  | String c s' => ((if (N_of_ascii c <? 128)%N then 1 else 2) + byte_length s')%nat
  end.

Definition NAME_MAX : nat := 255.
Definition PATH_MAX : nat := 4096.

(** A name of more than [NAME_MAX] bytes is no entry of a directory. *)
Definition name_too_long (c : string) : bool := (NAME_MAX <? byte_length c)%nat.

(** A path of [PATH_MAX] bytes or more is refused before it is resolved. *)
Definition path_too_long (p : Path.t) : bool :=
  (PATH_MAX <=? byte_length (Path.str p))%nat.

(** One step of the resolution of a path: from the directory [cur] into
    its entry [c]. *)
Definition enter (fs : t) (cur : list string) (c : string) : result (list string) :=
  if String.eqb c ".." then Ok (removelast cur)
  else if name_too_long c then Raise NameTooLongError
  else match node_at fs (cur ++ [c]) with
       | Some Dir => Ok (cur ++ [c])
       | Some (File _) => Raise NotADirectoryError
       | None => Raise FileNotFoundError
       end.

Fixpoint walk (fs : t) (cur : list string) (components : list string)
    : result (list string) :=
  match components with
  | [] => Ok cur
  | c :: rest =>
      match enter fs cur c with
      | Ok cur' => walk fs cur' rest
      | Raise e => Raise e
      end
  end.

(** A path with a NUL character is refused before the system is asked. *)
Definition has_nul (p : Path.t) : bool :=
  negb (Nat.eqb (Py.count "000" (Path.str p)) 0).

(** [os.mkdir(p)] *)
Definition os_mkdir (p : Path.t) : io t unit := λ fs,
  if has_nul p then (fs, Raise ValueError)
  else if path_too_long p then (fs, Raise NameTooLongError)
  else match rev (Path.parts p) with
       | [] => (fs, Raise FileExistsError)
       | c :: rparent =>
           match walk fs (start fs p) (rev rparent) with
           | Raise e => (fs, Raise e)
           | Ok cur =>
               if String.eqb c ".." then (fs, Raise FileExistsError)
               else if name_too_long c then (fs, Raise NameTooLongError)
               else match node_at fs (cur ++ [c]) with
                    | Some _ => (fs, Raise FileExistsError)
                    | None => (mk (cwd fs) (<[cur ++ [c] := Dir]> (nodes fs)), Ok ())
                    end
           end
       end.

(** [p.is_dir()]: a path that does not resolve is no directory; the
    other errors of [stat] are raised. *)
Definition is_dir (p : Path.t) : io t bool := λ fs,
  if has_nul p then (fs, Ok false)
  else if path_too_long p then (fs, Raise NameTooLongError)
  else match walk fs (start fs p) (Path.parts p) with
       | Ok _ => (fs, Ok true)
       | Raise NameTooLongError => (fs, Raise NameTooLongError)
       | Raise _ => (fs, Ok false)
       end.

(** The handler [except OSError: if not exist_ok or not self.is_dir(): raise]
    of [Path.mkdir], with [exist_ok=True]. *)
Definition unless_is_dir (p : Path.t) (e : exception) : io t unit :=
  found ← is_dir p;
  if found : bool then mret () else raise e.

(** [p.mkdir(parents=False, exist_ok=True)] *)
Definition mkdir_here (p : Path.t) : io t unit := λ fs,
  match os_mkdir p fs with
  | (fs', Ok u) => (fs', Ok u)
  | (fs', Raise ValueError) => (fs', Raise ValueError)
  | (fs', Raise FileNotFoundError) => (fs', Raise FileNotFoundError)
  | (fs', Raise e) => unless_is_dir p e fs'
  end.

(** [p.mkdir(parents=True, exist_ok=True)], [p] given by its root and its
    components in reverse: when a parent is missing, the parent is made in
    the same way and the directory after it. *)
Fixpoint mkdir_parents (root : string) (rparts : list string) : io t unit := λ fs,
  let p := Path.mk root (rev rparts) in
  match os_mkdir p fs with
  | (fs', Ok u) => (fs', Ok u)
  | (fs', Raise ValueError) => (fs', Raise ValueError)
  | (fs', Raise FileNotFoundError) =>
      match rparts with
      | [] => (fs', Raise FileNotFoundError)
      | _ :: rparent =>
          match mkdir_parents root rparent fs' with
          | (fs1, Ok _) => mkdir_here p fs1
          | (fs1, Raise e) => (fs1, Raise e)
          end
      end
  | (fs', Raise e) => unless_is_dir p e fs'
  end.

Definition mkdir (p : Path.t) : io t unit :=
  mkdir_parents (Path.root p) (rev (Path.parts p)).

(** [p.write_text(content)]: the file is opened for writing, made or
    emptied, and the text written. *)
Definition write_text (p : Path.t) (content : string) : io t unit := λ fs,
  if has_nul p then (fs, Raise ValueError)
  else if path_too_long p then (fs, Raise NameTooLongError)
  else match rev (Path.parts p) with
       | [] => (fs, Raise IsADirectoryError)
       | c :: rparent =>
           match walk fs (start fs p) (rev rparent) with
           | Raise e => (fs, Raise e)
           | Ok cur =>
               if String.eqb c ".." then (fs, Raise IsADirectoryError)
               else if name_too_long c then (fs, Raise NameTooLongError)
               else match node_at fs (cur ++ [c]) with
                    | Some Dir => (fs, Raise IsADirectoryError)
                    | _ => (mk (cwd fs) (<[cur ++ [c] := File content]> (nodes fs)), Ok ())
                    end
           end
       end.

(** An empty disk: the root alone, which is the working directory. *)
Definition empty : t := mk [] ∅.

End Posix.

#[global] Instance posix_ops : FileSystemOps Posix.t :=
  {| path_mkdir := Posix.mkdir; path_write_text := Posix.write_text |}.

(** ** Data model *)

(** [trendradar.storage.base.NewsItem], the attributes the module reads
    or writes.  [url], [mobile_url] and [rank] may be [None]. *)
Module NewsItem.
Record t := mk {
  title : string;
  source_id : string;
  source_name : string;
  url : option string;
  mobile_url : option string;
  rank : option Z;
}.

(** The assignment [it.source_name = name]. *)
Definition set_source_name (name : string) (it : t) : t :=
  mk (title it) (source_id it) name (url it) (mobile_url it) (rank it).
End NewsItem.

(** Object identity of a [NewsItem], and the objects' current state. *)
Definition ref := nat.
Definition heap := ref → NewsItem.t.

(** [it.source_name = name] on the object [it]. *)
Definition store_source_name (h : heap) (it : ref) (name : string) : heap :=
  λ r, if decide (r = it) then NewsItem.set_source_name name (h r) else h r.

(** [trendradar.storage.base.NewsData]: per platform id the list of its
    items, in the order of the dict, and the display names.  An absent
    [items] and an empty dict are both the empty list ([data.items or {}]). *)
Module NewsData.
Record t := mk {
  items : list (string * list ref);
  id_to_name : gmap string string;
}.
End NewsData.

Record AiHotspotLine := mk_AiHotspotLine {
  idx : Z;
  platform_id : string;
  platform_name : string;
  title : string;
  url : string;
  mobile_url : string;
  rank : Z;
}.

(** [datetime], the fields [strftime] prints. *)
Record datetime := mk_datetime {
  year : nat; month : nat; day : nat; hour : nat; minute : nat; second : nat;
}.

(** The collaborators of other modules of the repository:
    [trendradar.report.helpers.clean_title] and
    [trendradar.utils.url.normalize_url]. *)
Class Collaborators := {
  clean_title : string → string;
  normalize_url : string → string → string;
}.


(** ** The module *)

Section Core.
Context `{Collaborators}.

(** The stable identity used for the deduplication across days: the
    normalised URL, or the cleaned lower-case title of an item without URL. *)
Definition _item_identity (item : NewsItem.t) : string :=
  let url := Py.strip (default "" (NewsItem.url item)) in
  if Py.truthy url then "url:" +:+ normalize_url url (NewsItem.source_id item)
  else "title:" +:+ Py.lower (clean_title (NewsItem.title item)).

(** The key of [items.sort]:
    [(x.rank or 999, x.source_id or "", clean_title(x.title))]. *)
Definition sort_key (x : NewsItem.t) : Z * string * string :=
  (Py.int_or (NewsItem.rank x) 999,
   Py.or_else (Some (NewsItem.source_id x)) "",
   clean_title (NewsItem.title x)).

(** Comparison of two key tuples, component after component. *)
Definition key_compare (a b : Z * string * string) : comparison :=
  match (a.1.1 ?= b.1.1)%Z with
  | Eq => match String.compare a.1.2 b.1.2 with
          | Eq => String.compare a.2 b.2
          | c => c
          end
  | c => c
  end.

Definition key_ltb (a b : Z * string * string) : bool :=
  match key_compare a b with Lt => true | _ => false end.

(** [id_to_name.get(source_id) or data.id_to_name.get(source_id) or source_id] *)
Definition resolve_name (id_to_name : gmap string string) (data : NewsData.t)
    (source_id : string) : string :=
  Py.or_else (id_to_name !! source_id)
    (Py.or_else (NewsData.id_to_name data !! source_id) source_id).

(** The body of the inner loop: write the name on the object, append it. *)
Definition flatten_item (source_name : string) (st : heap * list ref) (it : ref)
    : heap * list ref :=
  (store_source_name st.1 it source_name, st.2 ++ [it]).

(** The body of the outer loop, for one entry of [data.items]. *)
Definition flatten_source (id_to_name : gmap string string) (data : NewsData.t)
    (st : heap * list ref) (entry : string * list ref) : heap * list ref :=
  let source_name := resolve_name id_to_name data entry.1 in
  foldl (flatten_item source_name) st entry.2.

Definition _flatten_news (h : heap) (data : NewsData.t)
    (id_to_name : gmap string string) : heap * list ref :=
  let st := foldl (flatten_source id_to_name data) (h, []) (NewsData.items data) in
  (st.1, Py.sort (λ a b, key_ltb (sort_key (st.1 a)) (sort_key (st.1 b))) st.2).

(** The set of the identities of yesterday's items; empty without a
    snapshot of yesterday. *)
Definition yesterday_identities (h : heap) (yesterday_data : option NewsData.t)
    : heap * gset string :=
  match yesterday_data with
  | Some y =>
      let fl := _flatten_news h y (NewsData.id_to_name y) in
      (fl.1, foldl (λ seen it, {[_item_identity (fl.1 it)]} ∪ seen) ∅ fl.2)
  | None => (h, ∅)
  end.

(** The body of the loop over today's items; the state is [today_seen]
    and [unique_candidates]. *)
Definition dedup_step (h : heap) (yesterday_seen : gset string)
    (st : gset string * list ref) (it : ref) : gset string * list ref :=
  let identity := _item_identity (h it) in
  if bool_decide (identity ∈ yesterday_seen) then st
  else if bool_decide (identity ∈ st.1) then st
  else ({[identity]} ∪ st.1, st.2 ++ [it]).

(** The first part of [build_daily_unique_hotspots], up to the end of the
    two deduplications: the heap it leaves and [unique_candidates]. *)
Definition unique_candidates (h : heap) (today_data : NewsData.t)
    (yesterday_data : option NewsData.t) : heap * list ref :=
  let today := _flatten_news h today_data (NewsData.id_to_name today_data) in
  let yesterday := yesterday_identities today.1 yesterday_data in
  (yesterday.1, (foldl (dedup_step yesterday.1 yesterday.2) (∅, []) today.2).2).

(** One exported line. *)
Definition hotspot_line (h : heap) (numbered : Z * ref) : AiHotspotLine :=
  let it := h numbered.2 in
  {| idx := numbered.1;
     platform_id := NewsItem.source_id it;
     platform_name := Py.or_else (Some (NewsItem.source_name it)) (NewsItem.source_id it);
     title := clean_title (NewsItem.title it);
     url := Py.strip (default "" (NewsItem.url it));
     mobile_url := Py.strip (default "" (NewsItem.mobile_url it));
     rank := Py.int_or (NewsItem.rank it) 0 |}.

(** Returns the heap it leaves and the pair [(lines, total_candidates)]. *)
Definition build_daily_unique_hotspots (h : heap) (today_data : NewsData.t)
    (yesterday_data : option NewsData.t) (max_items : Z)
    : heap * (list AiHotspotLine * Z) :=
  let st := unique_candidates h today_data yesterday_data in
  let total_candidates := Z.of_nat (length st.2) in
  let kept := if (0 <? max_items)%Z then Py.slice_to st.2 max_items else st.2 in
  (st.1, (hotspot_line st.1 <$> Py.enumerate kept 1, total_candidates)).

End Core.

(** *** The text renderer *)

(** [n] printed on at least [width] digits, as [%m], [%d], [%H] print. *)
Definition zero_padded (width : nat) (n : nat) : string :=
  let digits := Py.str_of_int (Z.of_nat n) in
  String.concat "" (replicate (width - String.length digits)%nat "0") +:+ digits.

(** [generated_at.strftime('%Y-%m-%d %H:%M:%S')], as the C library of
    Linux prints it: the year without padding. *)
Definition strftime (t : datetime) : string :=
  zero_padded 1 (year t) +:+ "-" +:+ zero_padded 2 (month t) +:+ "-"
  +:+ zero_padded 2 (day t) +:+ " " +:+ zero_padded 2 (hour t) +:+ ":"
  +:+ zero_padded 2 (minute t) +:+ ":" +:+ zero_padded 2 (second t).

(** The line of one item, as the loop over [lines] builds it. *)
Definition body_line (it : AiHotspotLine) : string :=
  let line :=
    Py.str_of_int (idx it) +:+ ". [platform=" +:+ platform_name it
    +:+ "] [platform_id=" +:+ platform_id it +:+ "] " +:+ title it in
  let line :=
    if Py.truthy (url it) then line +:+ " [URL:" +:+ url it +:+ "]" else line in
  let line :=
    if Py.truthy (mobile_url it)
    then line +:+ " [MOBILE:" +:+ mobile_url it +:+ "]" else line in
  let line :=
    if negb (rank it =? 0)
    then line +:+ " [RANK:" +:+ Py.str_of_int (rank it) +:+ "]" else line in
  line.

Definition render_ai_hotspots_text (lines : list AiHotspotLine)
    (date_str : string) (generated_at : datetime)
    (dedupe_against_date : option string) (total_candidates : Z) : string :=
  let header :=
    [ "# TrendRadar 热点原料（AI可读）";
      "- date: " +:+ date_str;
      "- generated_at: " +:+ strftime generated_at ] in
  let header :=
    match dedupe_against_date with
    | Some d => if Py.truthy d then header ++ ["- dedupe_against: " +:+ d] else header
    | None => header
    end in
  let header :=
    header ++
    [ "- candidates_after_dedupe: " +:+ Py.str_of_int total_candidates;
      "- exported_count: " +:+ Py.str_of_int (Z.of_nat (length lines));
      "";
      "说明：下面每条前面的数字序号，就是【来源ID】（source_id）。后续 Step3/Step4 必须引用这个序号，程序才能回填平台与URL。";
      "" ] in
  let body := body_line <$> lines in
  Py.join (String "010" "") (header ++ body) +:+ String "010" "".

(** *** Where the text is stored *)

(** Writes [local_base_dir/YYYY/MM/DD/filename] and returns the path;
    unpacking the date raises [ValueError], the two calls of the file
    system raise what they raise. *)
Definition write_ai_hotspots_file {FS} `{!FileSystemOps FS} (local_base_dir : string)
    (date_str : string) (filename : string) (content : string) : io FS string :=
  match Py.unpack3 (Py.split "-" 2 date_str) with
  | None => raise ValueError
  | Some (y, m, d) =>
      let out_dir := Path.div (Path.div (Path.div (Path.parse local_base_dir) y) m) d in
      _ ← path_mkdir out_dir;
      let out_path := Path.div out_dir filename in
      _ ← path_write_text out_path content;
      mret (Path.str out_path)
  end.

(** The R2 key [{prefix}/YYYY/MM/DD/{filename}]; [None] when unpacking the
    date raises. *)
Definition build_r2_key (prefix : option string) (date_str : string)
    (filename : string) : option string :=
  let prefix := Py.strip_chars ["/"%char] (Py.strip (default "" prefix)) in
  '(y, m, d) ← Py.unpack3 (Py.split "-" 2 date_str);
  let parts := List.filter Py.truthy [prefix; y; m; d; filename] in
  Some (Py.join "/" parts).

(** ** Sample collaborators and snapshots, to run the module *)

(** A title cleaner that trims, and a URL normaliser that drops the query
    string: stand-ins for the collaborators of the repository. *)
Definition sample_clean_title (title : string) : string := Py.strip title.

Definition sample_normalize_url (url : string) (source_id : string) : string :=
  default url (head (Py.split "?" 1 url)).

#[local] Instance sample_collaborators : Collaborators :=
  {| clean_title := sample_clean_title; normalize_url := sample_normalize_url |}.

Definition news (title source_id : string) (url : option string) (rank : option Z)
    : NewsItem.t :=
  NewsItem.mk title source_id "" url None rank.

(** Six objects; every other reference is an item without title. *)
Definition sample_heap : heap := λ r,
  match r with
  | 0%nat => news "Alpha" "weibo" (Some "http://x.com/a") (Some 2)
  | 1%nat => news "Beta" "weibo" None (Some 1)
  | 2%nat => news "beta " "zhihu" None None
  | 3%nat => news "Gamma" "zhihu" (Some " http://x.com/g ") (Some 1000)
  | 4%nat => news "Alpha again" "weibo" (Some "http://x.com/a?utm=1") (Some 1)
  | 5%nat => news "Delta" "zhihu" (Some "http://x.com/d") (Some 3)
  | _ => news "" "" None None
  end.

Definition sample_today : NewsData.t :=
  NewsData.mk [("weibo", [0; 1]%nat); ("zhihu", [2; 3; 5]%nat)]
              {[ "weibo" := "Weibo" ]}.

Definition sample_yesterday : NewsData.t :=
  NewsData.mk [("weibo", [4]%nat)] ∅.

(** ** Notions of the specification *)

(** The fixed part of a body line, before the bracket segments. *)
Definition line_head (it : AiHotspotLine) : string :=
  Py.str_of_int (idx it) +:+ ". [platform=" +:+ platform_name it
  +:+ "] [platform_id=" +:+ platform_id it +:+ "] " +:+ title it.

(** A trailing segment [ [TAG:value]]. *)
Definition segment (tag value : string) : string :=
  " [" +:+ tag +:+ ":" +:+ value +:+ "]".

(** [text] when [present], nothing otherwise. *)
Definition when (present : bool) (text : string) : string :=
  if present then text else "".

(** The order on key tuples in words: the first components that differ
    decide, strings compare character after character. *)
Definition tuple_le (a b : Z * string * string) : Prop :=
  a.1.1 < b.1.1 ∨
  (a.1.1 = b.1.1 ∧
   (String.ltb a.1.2 b.1.2 = true ∨
    (a.1.2 = b.1.2 ∧ String.leb a.2 b.2 = true))).

(** An item has a rank when its rank is an [int] other than zero. *)
Definition ranked (x : NewsItem.t) : Prop :=
  ∃ r, NewsItem.rank x = Some r ∧ r ≠ 0.

(** The sentinel that stands for the rank of an item without rank. *)
Definition UNRANKED : Z := 999.

(** Two states of an item that differ at most in the display name the
    flattener writes. *)
Definition same_content (a b : NewsItem.t) : Prop :=
  NewsItem.title a = NewsItem.title b ∧
  NewsItem.source_id a = NewsItem.source_id b ∧
  NewsItem.url a = NewsItem.url b ∧
  NewsItem.mobile_url a = NewsItem.mobile_url b ∧
  NewsItem.rank a = NewsItem.rank b.

(** The last entry of a snapshot that lists the object [r]. *)
Fixpoint last_listing (entries : list (string * list ref)) (r : ref)
    : option (string * list ref) :=
  match entries with
  | [] => None
  | e :: es =>
      match last_listing es r with
      | Some e' => Some e'
      | None => if bool_decide (r ∈ e.2) then Some e else None
      end
  end.

(** The objects after the flattener ran over [entries]: an object that is
    listed carries the name resolved for the last entry that lists it. *)
Definition heap_after `{Collaborators} (id_to_name : gmap string string)
    (data : NewsData.t) (entries : list (string * list ref)) (h : heap) : heap :=
  λ r, match last_listing entries r with
       | Some e => NewsItem.set_source_name (resolve_name id_to_name data e.1) (h r)
       | None => h r
       end.

(** The first value that is present and not empty. *)
Definition first_non_empty (candidates : list (option string)) : option string :=
  head (List.filter Py.truthy (omap id candidates)).

(** The walk over today's items, as a recursion on the list: [excluded]
    are the identities seen yesterday, [seen] those accepted so far. *)
Fixpoint walk (key : ref → string) (excluded seen : gset string) (today : list ref)
    : list ref :=
  match today with
  | [] => []
  | it :: rest =>
      if bool_decide (key it ∈ excluded) then walk key excluded seen rest
      else if bool_decide (key it ∈ seen) then walk key excluded seen rest
      else it :: walk key excluded ({[key it]} ∪ seen) rest
  end.

(** The position [i] of a sequence of identities holds an identity that is
    not among yesterday's and occurs at no earlier position. *)
Definition first_unseen (keys yesterday_keys : list string) (i : nat) : Prop :=
  ∃ k, keys !! i = Some k ∧ (k ∉ yesterday_keys) ∧
       ∀ j k', (j < i)%nat → keys !! j = Some k' → k' ≠ k.

(** A non-empty string of decimal digits. *)
Definition is_digit (c : ascii) : bool :=
  ((48 <=? N_of_ascii c) && (N_of_ascii c <=? 57))%N.

Fixpoint all_chars (p : ascii → bool) (s : string) : bool :=
  match s with
  | EmptyString => true
  | String c s' => p c && all_chars p s'
  end.

Definition digits (s : string) : bool := Py.truthy s && all_chars is_digit s.

(** A plain file name, one component of a path: not empty, not [.],
    without slash.  ([..] is one: what it names is up to the file
    system.) *)
Definition plain (s : string) : bool :=
  Py.truthy s && negb (String.eqb s ".") && Nat.eqb (Py.count "/" s) 0.

(** The key begins with a slash, ends with a slash. *)
Definition leading_slash (s : string) : bool :=
  match s with String "/" _ => true | _ => false end.

Fixpoint trailing_slash (s : string) : bool :=
  match s with
  | EmptyString => false
  | String c EmptyString => Ascii.eqb c "/"
  | String _ s' => trailing_slash s'
  end.

(** One of the slash-separated segments of [s] is empty: [s] is empty,
    begins or ends with a slash, or has two slashes in a row. *)
Definition empty_segment (s : string) : Prop := "" ∈ Py.split_all "/" s.




(** Reading a number back, as [int(s)] does for the decimal strings
    [str] prints. *)
Definition parse_int (s : string) : option Z :=
  Z.of_int <$> NilZero.int_of_string s.

(** The index a reader finds at the front of a body line: the number
    before the first dot. *)
Definition parse_idx (line : string) : option Z :=
  head (Py.split "." 1 line) ≫= parse_int.

(** The string begins, ends with a character of the class [p]. *)
Definition begins_with (p : ascii → bool) (s : string) : bool :=
  match s with
  | String c _ => p c
  | EmptyString => false
  end.

Fixpoint ends_with (p : ascii → bool) (s : string) : bool :=
  match s with
  | EmptyString => false
  | String c EmptyString => p c
  | String _ s' => ends_with p s'
  end.

(** * Properties *)

(** ** Strings *)

Lemma str_app_cons (x : ascii) (a b : string) : String x a +:+ b = String x (a +:+ b).
Proof. reflexivity. Qed.

Lemma str_app_nil (b : string) : "" +:+ b = b.
Proof. reflexivity. Qed.

Lemma str_app_assoc (a b c : string) : (a +:+ b) +:+ c = a +:+ (b +:+ c).
Proof.
  induction a as [|x a IH]; [done|].
  by rewrite !str_app_cons, IH.
Qed.

Lemma str_app_empty_r (a : string) : a +:+ "" = a.
Proof. induction a as [|x a IH]; [done|]. by rewrite str_app_cons, IH. Qed.

Lemma truthy_spec (s : string) : Py.truthy s = true ↔ s ≠ "".
Proof. destruct s; simpl; split; congruence. Qed.

Lemma truthy_false (s : string) : Py.truthy s = false ↔ s = "".
Proof. destruct s; simpl; split; congruence. Qed.

Lemma or_else_empty (s : string) : Py.or_else (Some s) "" = s.
Proof. by destruct s. Qed.

(** ** Numbering and truncation *)

Lemma enumerate_length {A} (l : list A) (start : Z) :
  length (Py.enumerate l start) = length l.
Proof. revert start; induction l as [|x l IH]; intros start; simpl; [done|]. by rewrite IH. Qed.

Lemma enumerate_fst {A} (l : list A) (start : Z) :
  (Py.enumerate l start).*1 = (λ i : nat, start + Z.of_nat i) <$> seq 0 (length l).
Proof.
  revert start; induction l as [|x l IH]; intros start; simpl; [done|].
  rewrite IH, Z.add_0_r. f_equal.
  rewrite <- fmap_S_seq, <- list_fmap_compose.
  apply list_fmap_ext. intros _ i _. simpl. lia.
Qed.

Lemma enumerate_take {A} (l : list A) (start : Z) (n : nat) :
  Py.enumerate (take n l) start = take n (Py.enumerate l start).
Proof.
  revert start n; induction l as [|x l IH]; intros start [|n]; simpl; try done.
  by rewrite IH.
Qed.

Section Properties.
Context `{Collaborators}.

Lemma build_lines (h : heap) (today : NewsData.t) (yesterday : option NewsData.t)
    (max_items : Z) :
  let st := unique_candidates h today yesterday in
  (build_daily_unique_hotspots h today yesterday max_items).2.1
  = hotspot_line st.1 <$>
      Py.enumerate (if 0 <? max_items then take (Z.to_nat max_items) st.2 else st.2) 1.
Proof. done. Qed.

(** C3.  The [idx] fields of the lines [build_daily_unique_hotspots] returns
    are 1, 2, ..., up to the number of lines, in the order of the list,
    whatever the deduplication removed and the truncation dropped. *)
Theorem idx_contiguous (h : heap) (today : NewsData.t)
    (yesterday : option NewsData.t) (max_items : Z) :
  let lines := (build_daily_unique_hotspots h today yesterday max_items).2.1 in
  (idx <$> lines) = (Z.of_nat <$> seq 1 (length lines)).
Proof.
  intros lines. subst lines. rewrite build_lines. cbv zeta.
  set (kept := if 0 <? max_items then _ else _).
  rewrite length_fmap, enumerate_length.
  rewrite <- list_fmap_compose.
  change (idx ∘ hotspot_line _) with (fst : Z * ref → Z).
  rewrite enumerate_fst, <- fmap_S_seq, <- list_fmap_compose.
  apply list_fmap_ext. intros _ i _. simpl. lia.
Qed.

(** C4.  With [C] the number of candidates that survive the two
    deduplications: [total_candidates] is [C]; a positive [max_items = k]
    returns [min k C] lines, the first [k] of the lines of the run without
    truncation; a non-positive [max_items] returns [C] lines. *)
Theorem truncation (h : heap) (today : NewsData.t)
    (yesterday : option NewsData.t) (k : Z) :
  let C := length (unique_candidates h today yesterday).2 in
  let full := (build_daily_unique_hotspots h today yesterday 0).2.1 in
  let out := (build_daily_unique_hotspots h today yesterday k).2 in
  out.2 = Z.of_nat C ∧ length full = C ∧
  (0 < k → length out.1 = Nat.min (Z.to_nat k) C ∧ out.1 = take (Z.to_nat k) full) ∧
  (k ≤ 0 → length out.1 = C ∧ out.1 = full).
Proof.
  intros C full out. subst C full out.
  rewrite !build_lines. cbv zeta.
  change (0 <? 0) with false. cbv iota.
  split; [done|].
  split; [by rewrite length_fmap, enumerate_length|].
  split; intros Hk.
  - assert ((0 <? k) = true) as -> by lia.
    split.
    + by rewrite length_fmap, enumerate_length, length_take.
    + by rewrite enumerate_take, fmap_take.
  - assert ((0 <? k) = false) as -> by lia.
    split; [by rewrite length_fmap, enumerate_length|done].
Qed.

(** C5.  The identity of an item is ["url:"] followed by the normalised
    trimmed URL when the trimmed URL is not empty, and ["title:"] followed
    by the lower-cased cleaned title otherwise; an item with empty title
    and no URL has the identity ["title:"] when cleaning the empty title
    gives the empty title.  The function is total: it never raises. *)
Theorem identity_resolver (item : NewsItem.t) :
  let trimmed := Py.strip (default "" (NewsItem.url item)) in
  (trimmed ≠ "" →
     _item_identity item = "url:" +:+ normalize_url trimmed (NewsItem.source_id item)) ∧
  (trimmed = "" →
     _item_identity item = "title:" +:+ Py.lower (clean_title (NewsItem.title item))) ∧
  (NewsItem.title item = "" → default "" (NewsItem.url item) = "" →
     clean_title "" = "" → _item_identity item = "title:").
Proof.
  intros trimmed. unfold _item_identity. fold trimmed.
  split; [|split].
  - intros Hne. by apply truthy_spec in Hne as ->.
  - intros Heq. by apply truthy_false in Heq as ->.
  - intros Ht Hu Hc. subst trimmed. rewrite Hu, Ht, Hc. done.
Qed.

End Properties.

(** ** The rendered lines *)

(** C9.  The text is a header followed by one body line per item.  A body
    line is its fixed part followed by the [URL] segment exactly when the
    URL is not empty, then the [MOBILE] segment exactly when the mobile URL
    is not empty, then the [RANK] segment exactly when the rank is not
    zero; with a URL, a rank and no mobile URL it ends with the [URL]
    segment followed by the [RANK] segment, without [MOBILE] segment. *)
Theorem body_line_segments (it : AiHotspotLine) :
  (∀ lines date_str generated_at dedupe_against_date total_candidates,
     ∃ header,
       render_ai_hotspots_text (lines ++ [it]) date_str generated_at
         dedupe_against_date total_candidates
       = Py.join (String "010" "") (header ++ (body_line <$> lines) ++ [body_line it])
         +:+ String "010" "") ∧
  body_line it
  = line_head it
    +:+ when (bool_decide (url it ≠ "")) (segment "URL" (url it))
    +:+ when (bool_decide (mobile_url it ≠ "")) (segment "MOBILE" (mobile_url it))
    +:+ when (bool_decide (rank it ≠ 0)) (segment "RANK" (Py.str_of_int (rank it))) ∧
  (url it ≠ "" → rank it ≠ 0 → mobile_url it = "" →
   body_line it
   = line_head it +:+ segment "URL" (url it)
     +:+ segment "RANK" (Py.str_of_int (rank it))).
Proof.
  assert (body_line it
    = line_head it
      +:+ when (bool_decide (url it ≠ "")) (segment "URL" (url it))
      +:+ when (bool_decide (mobile_url it ≠ "")) (segment "MOBILE" (mobile_url it))
      +:+ when (bool_decide (rank it ≠ 0)) (segment "RANK" (Py.str_of_int (rank it))))
    as Hline.
  { unfold body_line. fold (line_head it).
    destruct (url it) as [|c1 u] eqn:Hu; simpl Py.truthy; cbv iota;
      [rewrite (bool_decide_eq_false_2 _) by naive_solver
      |rewrite (bool_decide_eq_true_2 _) by done];
    (destruct (mobile_url it) as [|c2 m] eqn:Hm; simpl Py.truthy; cbv iota;
      [rewrite (bool_decide_eq_false_2 (_ ≠ _)) by naive_solver
      |rewrite (bool_decide_eq_true_2 (_ ≠ _)) by done]);
    (destruct (Z.eqb_spec (rank it) 0) as [Hr|Hr]; simpl negb; cbv iota;
      [rewrite (bool_decide_eq_false_2 (_ ≠ _)) by naive_solver
      |rewrite (bool_decide_eq_true_2 (_ ≠ _)) by done]);
    unfold when, segment;
    rewrite ?str_app_assoc, ?str_app_cons, ?str_app_nil, ?str_app_empty_r;
    reflexivity. }
  split; [|split].
  - intros lines date_str generated_at dedupe_against_date total_candidates.
    unfold render_ai_hotspots_text. rewrite fmap_app.
    destruct dedupe_against_date as [d|]; [destruct (Py.truthy d)|];
      eexists; reflexivity.
  - exact Hline.
  - intros Hu Hr Hm. rewrite Hline, Hm.
    rewrite (bool_decide_eq_true_2 _ Hu), (bool_decide_eq_true_2 _ Hr).
    rewrite (bool_decide_eq_false_2 ("" ≠ "")) by naive_solver.
    reflexivity.
Qed.

(** ** The stable sort *)

Section SortFacts.
Context {A : Type} (lt : A → A → bool).

Lemma insert_perm (x : A) (l : list A) : Py.insert lt x l ≡ₚ x :: l.
Proof.
  induction l as [|y l IH]; simpl; [done|].
  destruct (lt y x); [|done].
  rewrite IH. apply Permutation_swap.
Qed.

Lemma sort_perm (l : list A) : Py.sort lt l ≡ₚ l.
Proof.
  induction l as [|x l IH]; simpl; [done|].
  fold (Py.sort lt l). by rewrite insert_perm, IH.
Qed.

Lemma sort_elem_of (x : A) (l : list A) : x ∈ Py.sort lt l ↔ x ∈ l.
Proof. by rewrite sort_perm. Qed.

(** Elements no one of which is below another keep their order: the sort
    is stable. *)
Lemma insert_filter (P : A → bool) (x : A) (l : list A) :
  (∀ a b, P a = true → P b = true → lt a b = false) →
  List.filter P (Py.insert lt x l) = List.filter P (x :: l).
Proof.
  intros HP. induction l as [|y l IH]; [done|].
  simpl Py.insert. destruct (lt y x) eqn:Hyx; [|done].
  simpl in *. rewrite IH.
  destruct (P x) eqn:Hx, (P y) eqn:Hy; try done.
  by rewrite HP in Hyx.
Qed.

Lemma sort_stable (P : A → bool) (l : list A) :
  (∀ a b, P a = true → P b = true → lt a b = false) →
  List.filter P (Py.sort lt l) = List.filter P l.
Proof.
  intros HP. induction l as [|x l IH]; [done|].
  simpl Py.sort. fold (Py.sort lt l). rewrite insert_filter by done.
  simpl. by rewrite IH.
Qed.

Hypothesis lt_asym : ∀ a b, lt a b = true → lt b a = false.
Hypothesis le_trans : ∀ a b c, lt b a = false → lt c b = false → lt c a = false.

Lemma insert_sorted (x : A) (l : list A) :
  StronglySorted (λ a b, lt b a = false) l →
  StronglySorted (λ a b, lt b a = false) (Py.insert lt x l).
Proof.
  induction 1 as [|y l Hl IH Hy]; simpl; [by repeat constructor|].
  destruct (lt y x) eqn:Hyx.
  - constructor; [done|].
    apply Forall_forall. intros z Hz.
    rewrite insert_perm in Hz. apply elem_of_cons in Hz.
    destruct Hz as [->|Hz]; [by apply lt_asym|].
    rewrite Forall_forall in Hy. by apply Hy.
  - constructor; [by constructor|].
    constructor; [done|].
    eapply Forall_impl; [exact Hy|]. intros z Hz. simpl in Hz. by eapply le_trans.
Qed.

Lemma sort_sorted (l : list A) : StronglySorted (λ a b, lt b a = false) (Py.sort lt l).
Proof.
  induction l as [|x l IH]; simpl; [constructor|].
  by apply insert_sorted.
Qed.

End SortFacts.

(** ** The order on the sort keys *)

Lemma string_compare_refl (s : string) : String.compare s s = Eq.
Proof.
  pose proof (String.compare_antisym s s) as Hs.
  by destruct (String.compare s s).
Qed.

Lemma string_compare_lt_trans (a b c : string) :
  String.compare a b = Lt → String.compare b c = Lt → String.compare a c = Lt.
Proof.
  intros Hab Hbc.
  assert (String.le a c) as Hac.
  { transitivity b; unfold String.le, String.leb; [by rewrite Hab|by rewrite Hbc]. }
  unfold String.le, String.leb in Hac.
  destruct (String.compare a c) eqn:Hc; [|done|done].
  apply String.compare_eq_iff in Hc as ->.
  rewrite String.compare_antisym, Hab in Hbc. done.
Qed.

Section KeyOrder.

Lemma key_compare_antisym (a b : Z * string * string) :
  key_compare b a = CompOpp (key_compare a b).
Proof.
  unfold key_compare.
  rewrite (Z.compare_antisym a.1.1 b.1.1).
  rewrite (String.compare_antisym b.1.2 a.1.2), (String.compare_antisym b.2 a.2).
  destruct (a.1.1 ?= b.1.1); simpl; try done.
  destruct (String.compare a.1.2 b.1.2); simpl; done.
Qed.

Lemma key_compare_eq (a b : Z * string * string) : key_compare a b = Eq → a = b.
Proof.
  destruct a as [[a1 a2] a3], b as [[b1 b2] b3]. unfold key_compare. simpl.
  destruct (Z.compare_spec a1 b1) as [->| |]; [|done|done].
  destruct (String.compare a2 b2) eqn:H2; [|done|done].
  apply String.compare_eq_iff in H2 as ->.
  by intros ->%String.compare_eq_iff.
Qed.

Lemma key_compare_lt_trans (a b c : Z * string * string) :
  key_compare a b = Lt → key_compare b c = Lt → key_compare a c = Lt.
Proof.
  destruct a as [[a1 a2] a3], b as [[b1 b2] b3], c as [[c1 c2] c3].
  unfold key_compare. simpl.
  destruct (Z.compare_spec a1 b1) as [->|Hab|]; [| |done].
  - destruct (Z.compare_spec b1 c1) as [->|Hbc|]; [| |done].
    + destruct (String.compare a2 b2) eqn:Hab2; [| |done].
      * apply String.compare_eq_iff in Hab2 as ->.
        destruct (String.compare b2 c2) eqn:Hbc2; [| |done].
        -- apply String.compare_eq_iff in Hbc2 as ->. apply string_compare_lt_trans.
        -- done.
      * destruct (String.compare b2 c2) eqn:Hbc2; [| |done].
        -- apply String.compare_eq_iff in Hbc2 as ->. by rewrite Hab2.
        -- by rewrite (string_compare_lt_trans _ _ _ Hab2 Hbc2).
    + done.
  - intros _. destruct (Z.compare_spec b1 c1) as [->|Hbc|]; [| |done].
    + by destruct (Z.compare_spec a1 c1); [lia| |lia].
    + by destruct (Z.compare_spec a1 c1); [lia| |lia].
Qed.

Lemma key_ltb_asym (a b : Z * string * string) : key_ltb a b = true → key_ltb b a = false.
Proof.
  unfold key_ltb. rewrite (key_compare_antisym a b).
  by destruct (key_compare a b).
Qed.

Lemma key_le_trans (a b c : Z * string * string) :
  key_ltb b a = false → key_ltb c b = false → key_ltb c a = false.
Proof.
  unfold key_ltb.
  rewrite (key_compare_antisym a b), (key_compare_antisym b c), (key_compare_antisym a c).
  destruct (key_compare a b) eqn:Hab; simpl; [| |done].
  - by apply key_compare_eq in Hab as ->.
  - destruct (key_compare b c) eqn:Hbc; simpl; [| |done].
    + apply key_compare_eq in Hbc as ->. by rewrite Hab.
    + by rewrite (key_compare_lt_trans _ _ _ Hab Hbc).
Qed.

(** The comparison of the code is the order on tuples. *)
Lemma key_le_tuple_le (a b : Z * string * string) : key_ltb b a = false ↔ tuple_le a b.
Proof.
  unfold key_ltb. rewrite (key_compare_antisym a b).
  destruct a as [[a1 a2] a3], b as [[b1 b2] b3].
  unfold key_compare, tuple_le, String.ltb, String.leb. simpl.
  destruct (Z.compare_spec a1 b1) as [->|Hab|Hab]; simpl.
  - destruct (String.compare a2 b2) eqn:H2; simpl.
    + apply String.compare_eq_iff in H2 as ->.
      destruct (String.compare a3 b3); simpl; split; try done.
      * intros _. right. split; [done|]. by right.
      * intros _. right. split; [done|]. by right.
      * intros [?|[_ [?|[_ ?]]]]; [lia|done|done].
    + split; [|done]. intros _. right. split; [done|]. by left.
    + split; [done|]. intros [?|[_ [?|[-> _]]]]; [lia|done|].
      by rewrite string_compare_refl in H2.
  - split; [|done]. intros _. by left.
  - split; [done|]. intros [?|[? _]]; lia.
Qed.

End KeyOrder.

Lemma sort_ext {A} (lt lt' : A → A → bool) (l : list A) :
  (∀ a b, lt a b = lt' a b) → Py.sort lt l = Py.sort lt' l.
Proof.
  intros Hext. induction l as [|x l IH]; [done|].
  simpl. fold (Py.sort lt l) (Py.sort lt' l). rewrite IH.
  generalize (Py.sort lt' l) as s. intros s.
  induction s as [|y s IHs]; [done|].
  simpl. rewrite Hext, IHs. done.
Qed.

(** ** The flattener *)

Section FlattenFacts.
Context {collaborators : Collaborators}.

Lemma same_content_set (n : string) (x : NewsItem.t) :
  same_content (NewsItem.set_source_name n x) x.
Proof. by repeat split. Qed.


Lemma same_content_trans (a b c : NewsItem.t) :
  same_content a b → same_content b c → same_content a c.
Proof. intros (?&?&?&?&?) (?&?&?&?&?). repeat split; congruence. Qed.


Lemma same_content_sort_key (a b : NewsItem.t) : same_content a b → sort_key a = sort_key b.
Proof. intros (Ht & Hs & Hu & Hm & Hr). unfold sort_key. by rewrite Ht, Hs, Hr. Qed.

Lemma same_content_identity (a b : NewsItem.t) :
  same_content a b → _item_identity a = _item_identity b.
Proof. intros (Ht & Hs & Hu & Hm & Hr). unfold _item_identity. by rewrite Ht, Hs, Hu. Qed.

Lemma flatten_items_spec (name : string) (l : list ref) (h : heap) (acc : list ref) :
  let st := foldl (flatten_item name) (h, acc) l in
  st.2 = acc ++ l ∧
  ∀ r, st.1 r = if bool_decide (r ∈ l) then NewsItem.set_source_name name (h r) else h r.
Proof.
  revert h acc. induction l as [|x l IH]; intros h acc; simpl.
  - split; [by rewrite app_nil_r|done].
  - destruct (IH (store_source_name h x name) (acc ++ [x])) as [IH2 IH1].
    unfold flatten_item at 2. simpl. split.
    + rewrite IH2. by rewrite <- (assoc_L (++)).
    + intros r. rewrite IH1. unfold store_source_name.
      destruct (decide (r = x)) as [->|Hne].
      * rewrite (bool_decide_eq_true_2 (x ∈ x :: l)) by (apply elem_of_cons; by left).
        by destruct (bool_decide (x ∈ l)).
      * destruct (bool_decide_reflect (r ∈ l)) as [Hin|Hin].
        -- by rewrite bool_decide_eq_true_2 by (apply elem_of_cons; by right).
        -- by rewrite bool_decide_eq_false_2 by (by apply not_elem_of_cons).
Qed.

Lemma flatten_sources_spec (id_to_name : gmap string string) (data : NewsData.t)
    (entries : list (string * list ref)) (h : heap) (acc : list ref) :
  let st := foldl (flatten_source id_to_name data) (h, acc) entries in
  st.2 = acc ++ concat (entries.*2) ∧
  ∀ r, st.1 r = heap_after id_to_name data entries h r.
Proof.
  revert h acc. induction entries as [|e es IH]; intros h acc; simpl.
  - split; [by rewrite app_nil_r|done].
  - change (flatten_source id_to_name data (h, acc) e)
      with (foldl (flatten_item (resolve_name id_to_name data e.1)) (h, acc) e.2).
    destruct (flatten_items_spec (resolve_name id_to_name data e.1) e.2 h acc)
      as [Hi2 Hi1].
    destruct (foldl (flatten_item _) (h, acc) e.2) as [h1 acc1]. simpl in Hi1, Hi2.
    destruct (IH h1 acc1) as [IH2 IH1]. split.
    + rewrite IH2, Hi2. by rewrite <- (assoc_L (++)).
    + intros r. rewrite IH1. unfold heap_after. simpl.
      destruct (last_listing es r) as [e'|].
      * rewrite Hi1. by destruct (bool_decide (r ∈ e.2)).
      * rewrite Hi1. by destruct (bool_decide (r ∈ e.2)).
Qed.

Lemma heap_after_content (id_to_name : gmap string string) (data : NewsData.t)
    (entries : list (string * list ref)) (h : heap) (r : ref) :
  same_content (heap_after id_to_name data entries h r) (h r).
Proof.
  unfold heap_after. destruct (last_listing entries r); [apply same_content_set|].
  by repeat split.
Qed.

(** What [_flatten_news] returns: the heap with the names written, and the
    items of all entries in the order of the snapshot, sorted. *)
Lemma flatten_news_spec (h : heap) (data : NewsData.t) (id_to_name : gmap string string) :
  let out := _flatten_news h data id_to_name in
  (∀ r, out.1 r = heap_after id_to_name data (NewsData.items data) h r) ∧
  out.2 = Py.sort (λ a b, key_ltb (sort_key (h a)) (sort_key (h b)))
            (concat ((NewsData.items data).*2)).
Proof.
  unfold _flatten_news.
  destruct (flatten_sources_spec id_to_name data (NewsData.items data) h [])
    as [H2 H1].
  destruct (foldl _ (h, []) (NewsData.items data)) as [h1 acc1]. simpl in *.
  split; [done|].
  rewrite H2. apply sort_ext. intros a b.
  rewrite !H1.
  by rewrite !(same_content_sort_key _ _ (heap_after_content _ _ _ h _)).
Qed.

Lemma last_listing_split (pre post : list (string * list ref)) (k : string)
    (l : list ref) (r : ref) :
  r ∈ l → (∀ e, e ∈ post → r ∉ e.2) →
  last_listing (pre ++ (k, l) :: post) r = Some (k, l).
Proof.
  intros Hin Hpost.
  assert (last_listing post r = None) as Hnone.
  { induction post as [|e post IH]; [done|]. simpl.
    rewrite IH by (intros e' He'; apply Hpost, elem_of_cons; by right).
    rewrite bool_decide_eq_false_2; [done|]. apply Hpost, elem_of_cons. by left. }
  induction pre as [|e pre IH]; simpl.
  - rewrite Hnone. by rewrite bool_decide_eq_true_2.
  - by rewrite IH.
Qed.

End FlattenFacts.

Lemma last_listing_listed (entries : list (string * list ref)) (r : ref) :
  (∃ e, e ∈ entries ∧ r ∈ e.2) → is_Some (last_listing entries r).
Proof.
  intros (e & He & Hr). induction entries as [|e' es IH]; [by apply elem_of_nil in He|].
  simpl. apply elem_of_cons in He as [<-|He].
  - destruct (last_listing es r); [done|]. by rewrite bool_decide_eq_true_2.
  - destruct (IH He) as [e'' ->]. done.
Qed.

Lemma StronglySorted_weaken {A} (R R' : A → A → Prop) (l : list A) :
  (∀ a b, R a b → R' a b) → StronglySorted R l → StronglySorted R' l.
Proof.
  intros HR. induction 1 as [|x l Hl IH Hx]; constructor; [done|].
  eapply Forall_impl; [exact Hx|]. intros y. apply HR.
Qed.

Lemma StronglySorted_lookup_lt {A} (R : A → A → Prop) (l : list A) (i j : nat) (a b : A) :
  StronglySorted R l → l !! i = Some a → l !! j = Some b → (i < j)%nat → R a b.
Proof.
  intros Hl. revert i j. induction Hl as [|x l Hl IH Hx]; intros i j Hi Hj Hij.
  - done.
  - destruct j as [|j]; [lia|]. destruct i as [|i]; simpl in *.
    + injection Hi as ->. rewrite Forall_forall in Hx.
      by eapply Hx, list_elem_of_lookup_2.
    + apply (IH i j); [done|done|lia].
Qed.

Section FlattenerProperties.
Context {collaborators : Collaborators}.

Lemma sort_key_spec (x : NewsItem.t) :
  sort_key x =
  (match NewsItem.rank x with
   | Some n => if n =? 0 then UNRANKED else n
   | None => UNRANKED
   end, NewsItem.source_id x, clean_title (NewsItem.title x)).
Proof. unfold sort_key. by rewrite or_else_empty. Qed.

Lemma resolve_name_first (id_to_name : gmap string string) (data : NewsData.t) (k : string) :
  resolve_name id_to_name data k
  = default "" (first_non_empty [id_to_name !! k; NewsData.id_to_name data !! k; Some k]).
Proof.
  unfold resolve_name, first_non_empty.
  destruct (id_to_name !! k) as [[|c1 n1]|];
    destruct (NewsData.id_to_name data !! k) as [[|c2 n2]|];
    destruct k as [|c3 n3]; reflexivity.
Qed.

Lemma resolve_name_non_empty (id_to_name : gmap string string) (data : NewsData.t)
    (k : string) :
  k ≠ "" → resolve_name id_to_name data k ≠ "".
Proof.
  unfold resolve_name.
  destruct (id_to_name !! k) as [[|c1 n1]|];
    destruct (NewsData.id_to_name data !! k) as [[|c2 n2]|];
    destruct k as [|c3 n3]; simpl; done.
Qed.

Lemma flatten_news_elem_of (h : heap) (data : NewsData.t)
    (id_to_name : gmap string string) (r : ref) :
  r ∈ (_flatten_news h data id_to_name).2 ↔ ∃ e, e ∈ NewsData.items data ∧ r ∈ e.2.
Proof.
  destruct (flatten_news_spec h data id_to_name) as [_ ->].
  rewrite sort_elem_of, list_elem_of_In, in_concat. split.
  - intros (l & Hl & Hr). apply list_elem_of_In, list_elem_of_fmap in Hl.
    destruct Hl as (e & -> & He). exists e. split; [done|]. by apply list_elem_of_In.
  - intros (e & He & Hr). exists e.2. split; [|by apply list_elem_of_In].
    by apply list_elem_of_In, list_elem_of_fmap_2.
Qed.

(** C6, as amended.  The flattened items are in ascending order of the key
    (the rank, or the sentinel 999 without rank; the platform id; the
    cleaned title), and an item whose rank is below the sentinel comes
    before every item without rank. *)
Theorem flatten_sorted (h : heap) (data : NewsData.t) (id_to_name : gmap string string) :
  let out := _flatten_news h data id_to_name in
  let key r :=
    (match NewsItem.rank (out.1 r) with
     | Some n => if n =? 0 then UNRANKED else n
     | None => UNRANKED
     end, NewsItem.source_id (out.1 r), clean_title (NewsItem.title (out.1 r))) in
  StronglySorted (λ a b, tuple_le (key a) (key b)) out.2 ∧
  ∀ (i j : nat) (a b : ref) (n : Z),
    out.2 !! i = Some a → out.2 !! j = Some b →
    NewsItem.rank (out.1 a) = Some n → n ≠ 0 → n < UNRANKED →
    ¬ ranked (out.1 b) → (i < j)%nat.
Proof.
  intros out key.
  assert (∀ r, key r = sort_key (h r)) as Hkey.
  { intros r. unfold key. rewrite <- sort_key_spec. subst out.
    destruct (flatten_news_spec h data id_to_name) as [-> _].
    apply same_content_sort_key, heap_after_content. }
  assert (StronglySorted (λ a b, tuple_le (key a) (key b)) out.2) as Hsorted.
  { subst out. destruct (flatten_news_spec h data id_to_name) as [_ ->].
    eapply StronglySorted_weaken; [|apply sort_sorted].
    - intros a b Hab. rewrite !Hkey. by apply key_le_tuple_le.
    - intros a b. apply key_ltb_asym.
    - intros a b c. apply key_le_trans. }
  split; [done|].
  intros i j a b n Hi Hj Hn Hn0 Hlt Hb.
  destruct (decide (i < j)%nat) as [|Hge]; [done|]. exfalso.
  destruct (decide (i = j)) as [->|Hne].
  - rewrite Hi in Hj. injection Hj as ->. apply Hb. by exists n.
  - assert (tuple_le (key b) (key a)) as Hle.
    { apply (StronglySorted_lookup_lt _ _ j i b a Hsorted); [done|done|lia]. }
    assert ((key b).1.1 = UNRANKED) as Hkb.
    { destruct (NewsItem.rank (out.1 b)) as [m|] eqn:Hm;
        unfold key; rewrite Hm; [|done].
      destruct (Z.eqb_spec m 0) as [|Hm0]; [done|]. exfalso. apply Hb. by exists m. }
    assert ((key a).1.1 = n) as Hka.
    { unfold key. rewrite Hn. by destruct (Z.eqb_spec n 0). }
    unfold tuple_le in Hle. rewrite Hkb, Hka in Hle.
    destruct Hle as [?|[? _]]; lia.
Qed.

Lemma last_listing_some (entries : list (string * list ref)) (r : ref)
    (e : string * list ref) :
  last_listing entries r = Some e →
  ∃ pre post, entries = pre ++ e :: post ∧ r ∈ e.2 ∧ ∀ e', e' ∈ post → r ∉ e'.2.
Proof.
  revert e. induction entries as [|e0 es IH]; intros e He; [done|].
  simpl in He. destruct (last_listing es r) as [e1|] eqn:Hes.
  - injection He as <-. destruct (IH e1 eq_refl) as (pre & post & -> & Hr & Hpost).
    by exists (e0 :: pre), post.
  - destruct (bool_decide_reflect (r ∈ e0.2)) as [Hr|Hr]; [|done].
    injection He as <-. exists [], es. split; [done|]. split; [done|].
    intros e' He' Hr'.
    destruct (last_listing_listed es r) as [e'' He'']; [by exists e'|congruence].
Qed.

Lemma source_name_of_listing (h : heap) (data : NewsData.t)
    (id_to_name : gmap string string) (pre post : list (string * list ref))
    (k : string) (l : list ref) (r : ref) :
  NewsData.items data = pre ++ (k, l) :: post →
  r ∈ l →
  (∀ e, e ∈ post → r ∉ e.2) →
  NewsItem.source_name ((_flatten_news h data id_to_name).1 r)
  = resolve_name id_to_name data k.
Proof.
  intros Hitems Hr Hpost.
  destruct (flatten_news_spec h data id_to_name) as [-> _].
  unfold heap_after. rewrite Hitems.
  by rewrite (last_listing_split pre post k l r Hr Hpost).
Qed.

(** C7, as amended.  Every flattened item is listed under a platform id
    [k] of the snapshot (the last one, for an object listed under several),
    and its name is the first non-empty value among the entry of the
    override mapping for [k], the entry of the snapshot's own mapping, and
    [k] itself; the name is not empty when [k] is not empty. *)
Theorem source_name_resolution (h : heap) (data : NewsData.t)
    (id_to_name : gmap string string) (r : ref) :
  let out := _flatten_news h data id_to_name in
  r ∈ out.2 →
  ∃ (pre post : list (string * list ref)) (k : string) (l : list ref),
    NewsData.items data = pre ++ (k, l) :: post ∧
    r ∈ l ∧
    (∀ e, e ∈ post → r ∉ e.2) ∧
    NewsItem.source_name (out.1 r)
    = default "" (first_non_empty
                    [id_to_name !! k; NewsData.id_to_name data !! k; Some k]) ∧
    (k ≠ "" → NewsItem.source_name (out.1 r) ≠ "").
Proof.
  intros out Hr. apply flatten_news_elem_of in Hr.
  destruct (last_listing_listed _ _ Hr) as [[k l] Hlast].
  destruct (last_listing_some _ _ _ Hlast) as (pre & post & Hitems & Hin & Hpost).
  exists pre, post, k, l. split; [done|]. split; [done|]. split; [done|].
  subst out.
  rewrite (source_name_of_listing h data id_to_name pre post k l r Hitems Hin Hpost).
  split; [apply resolve_name_first|].
  intros Hk. by apply resolve_name_non_empty.
Qed.

End FlattenerProperties.

(** C6, as stated, fails: in the sample snapshot the item without rank
    (object 2) is flattened before the item of rank 1000 (object 3). *)
Lemma ranked_after_unranked :
  let out := _flatten_news sample_heap sample_today (NewsData.id_to_name sample_today) in
  out.2 !! 3%nat = Some 2%nat ∧ out.2 !! 4%nat = Some 3%nat ∧
  ranked (out.1 3%nat) ∧ ¬ ranked (out.1 2%nat).
Proof.
  split; [reflexivity|]. split; [reflexivity|]. split.
  - exists 1000. split; [reflexivity|done].
  - intros (r & Hr & Hr0). vm_compute in Hr. discriminate.
Qed.

(** C7, as stated, fails: an item listed under the empty platform id, for
    which no mapping has a name, is flattened with an empty name. *)
Lemma empty_source_name :
  let data := NewsData.mk [("", [6%nat])] ∅ in
  let out := _flatten_news sample_heap data ∅ in
  out.2 = [6%nat] ∧ NewsItem.source_name (out.1 6%nat) = "".
Proof. split; reflexivity. Qed.

(** ** The two deduplications *)


Lemma walk_ext (key key' : ref → string) (excluded seen : gset string) (today : list ref) :
  (∀ r, key r = key' r) → walk key excluded seen today = walk key' excluded seen today.
Proof.
  intros Hk. revert seen. induction today as [|x l IH]; intros seen; simpl; [done|].
  rewrite Hk, !IH. done.
Qed.

Lemma walk_subseteq (key : ref → string) (excluded seen : gset string) (today : list ref) :
  walk key excluded seen today ⊆ today.
Proof.
  revert seen. induction today as [|x l IH]; intros seen r; simpl; [done|].
  destruct (bool_decide (key x ∈ excluded)).
  { intros Hr. apply elem_of_cons. right. by eapply IH. }
  destruct (bool_decide (key x ∈ seen)).
  { intros Hr. apply elem_of_cons. right. by eapply IH. }
  intros [->|Hr]%elem_of_cons; apply elem_of_cons; [by left|].
  right. by eapply IH.
Qed.

(** The accepted items are the items at the positions of [first_unseen],
    in increasing order of the positions. *)
Lemma walk_positions (key : ref → string) (excluded seen : gset string) (today : list ref) :
  ∃ positions : list nat,
    StronglySorted lt positions ∧
    Forall2 (λ i c, today !! i = Some c) positions (walk key excluded seen today) ∧
    ∀ i, i ∈ positions ↔
      ∃ x, today !! i = Some x ∧ (key x ∉ excluded) ∧ (key x ∉ seen) ∧
           ∀ j y, (j < i)%nat → today !! j = Some y → key y ≠ key x.
Proof.
  revert seen. induction today as [|x l IH]; intros seen.
  { exists []. split; [constructor|]. split; [constructor|].
    intros i. split; [by intros ?%elem_of_nil|]. by intros (? & ? & _). }
  assert (∀ ps : list nat, StronglySorted lt ps → StronglySorted lt (S <$> ps)) as Hshift.
  { induction 1 as [|p ps Hps IHps Hp]; simpl; constructor; [done|].
    apply Forall_fmap. eapply Forall_impl; [exact Hp|]. intros q. simpl. lia. }
  assert (∀ (ps : list nat) (cs : list ref),
            Forall2 (λ i c, l !! i = Some c) ps cs →
            Forall2 (λ i c, (x :: l) !! i = Some c) (S <$> ps) cs) as Hlook.
  { induction 1; simpl; by constructor. }
  simpl walk.
  destruct (bool_decide_reflect (key x ∈ excluded)) as [Hex|Hex];
    [|destruct (bool_decide_reflect (key x ∈ seen)) as [Hseen|Hseen]].
  - destruct (IH seen) as (ps & Hsorted & Hall & Hiff).
    exists (S <$> ps). split; [by apply Hshift|]. split; [by apply Hlook|].
    intros i. rewrite list_elem_of_fmap. split.
    + intros (i' & -> & Hi'). apply Hiff in Hi' as (y & Hy & Hy1 & Hy2 & Hy3).
      exists y. repeat split; try done.
      intros [|j] z Hj Hz; simpl in Hz.
      * injection Hz as <-. congruence.
      * apply (Hy3 j z); [lia|done].
    + intros (y & Hy & Hy1 & Hy2 & Hy3). destruct i as [|i']; simpl in Hy.
      * injection Hy as <-. done.
      * exists i'. split; [done|]. apply Hiff. exists y. repeat split; try done.
        intros j z Hj Hz. apply (Hy3 (S j) z); [lia|done].
  - destruct (IH seen) as (ps & Hsorted & Hall & Hiff).
    exists (S <$> ps). split; [by apply Hshift|]. split; [by apply Hlook|].
    intros i. rewrite list_elem_of_fmap. split.
    + intros (i' & -> & Hi'). apply Hiff in Hi' as (y & Hy & Hy1 & Hy2 & Hy3).
      exists y. repeat split; try done.
      intros [|j] z Hj Hz; simpl in Hz.
      * injection Hz as <-. congruence.
      * apply (Hy3 j z); [lia|done].
    + intros (y & Hy & Hy1 & Hy2 & Hy3). destruct i as [|i']; simpl in Hy.
      * injection Hy as <-. done.
      * exists i'. split; [done|]. apply Hiff. exists y. repeat split; try done.
        intros j z Hj Hz. apply (Hy3 (S j) z); [lia|done].
  - destruct (IH ({[key x]} ∪ seen)) as (ps & Hsorted & Hall & Hiff).
    exists (0%nat :: (S <$> ps)). split; [|split].
    + constructor; [by apply Hshift|]. apply Forall_fmap, Forall_forall.
      intros q _. simpl. lia.
    + constructor; [done|by apply Hlook].
    + intros i. rewrite elem_of_cons, list_elem_of_fmap. split.
      * intros [->|(i' & -> & Hi')].
        -- exists x. repeat split; try done. intros j z Hj. lia.
        -- apply Hiff in Hi' as (y & Hy & Hy1 & Hy2 & Hy3).
           apply not_elem_of_union in Hy2 as [Hy2 Hy4].
           apply not_elem_of_singleton in Hy2.
           exists y. repeat split; try done.
           intros [|j] z Hj Hz; simpl in Hz.
           ++ injection Hz as <-. congruence.
           ++ apply (Hy3 j z); [lia|done].
      * intros (y & Hy & Hy1 & Hy2 & Hy3). destruct i as [|i']; [by left|].
        right. exists i'. split; [done|]. apply Hiff. simpl in Hy.
        exists y. repeat split; try done.
        -- apply not_elem_of_union. split; [|done].
           apply not_elem_of_singleton. intros Heq.
           apply (Hy3 0%nat x); [lia|done|done].
        -- intros j z Hj Hz. apply (Hy3 (S j) z); [lia|done].
Qed.

Lemma seen_fold (key : ref → string) (l : list ref) (s : gset string) :
  foldl (λ seen it, {[key it]} ∪ seen) s l = list_to_set (key <$> l) ∪ s.
Proof.
  revert s. induction l as [|x l IH]; intros s; simpl.
  - by rewrite (left_id_L ∅ (∪)).
  - rewrite IH. apply set_eq. intros k.
    rewrite !elem_of_union, !elem_of_singleton. tauto.
Qed.

Section DedupProperties.
Context {collaborators : Collaborators}.

Lemma dedup_fold (h : heap) (excluded seen : gset string) (acc today : list ref) :
  (foldl (dedup_step h excluded) (seen, acc) today).2
  = acc ++ walk (λ r, _item_identity (h r)) excluded seen today.
Proof.
  revert seen acc. induction today as [|x l IH]; intros seen acc; simpl.
  - by rewrite app_nil_r.
  - unfold dedup_step at 2. simpl.
    destruct (bool_decide (_item_identity (h x) ∈ excluded)); [apply IH|].
    destruct (bool_decide (_item_identity (h x) ∈ seen)); [apply IH|].
    rewrite IH. by rewrite <- (assoc_L (++)).
Qed.

Lemma flatten_news_content (h : heap) (data : NewsData.t)
    (id_to_name : gmap string string) (r : ref) :
  same_content ((_flatten_news h data id_to_name).1 r) (h r).
Proof.
  destruct (flatten_news_spec h data id_to_name) as [-> _].
  apply heap_after_content.
Qed.

Lemma flatten_news_agree (h1 h2 : heap) (data : NewsData.t)
    (id_to_name : gmap string string) :
  (∀ r, same_content (h1 r) (h2 r)) →
  (_flatten_news h1 data id_to_name).2 = (_flatten_news h2 data id_to_name).2.
Proof.
  intros Hh.
  destruct (flatten_news_spec h1 data id_to_name) as [_ ->].
  destruct (flatten_news_spec h2 data id_to_name) as [_ ->].
  apply sort_ext. intros a b. by rewrite !(same_content_sort_key _ _ (Hh _)).
Qed.

Lemma yesterday_identities_content (h : heap) (yesterday : option NewsData.t) (r : ref) :
  same_content ((yesterday_identities h yesterday).1 r) (h r).
Proof.
  destruct yesterday as [y|]; unfold yesterday_identities; cbn [fst];
    [apply flatten_news_content|by repeat split].
Qed.

Lemma yesterday_identities_spec (h : heap) (yesterday : option NewsData.t) :
  (yesterday_identities h yesterday).2
  = list_to_set ((λ r, _item_identity (h r)) <$>
      match yesterday with
      | Some y => (_flatten_news h y (NewsData.id_to_name y)).2
      | None => []
      end).
Proof.
  destruct yesterday as [y|]; unfold yesterday_identities; cbn [snd]; [|done].
  rewrite seen_fold, (right_id_L ∅ (∪)). f_equal.
  apply list_fmap_ext. intros _ r _.
  apply same_content_identity, flatten_news_content.
Qed.

Lemma unique_candidates_content (h : heap) (today : NewsData.t)
    (yesterday : option NewsData.t) (r : ref) :
  same_content ((unique_candidates h today yesterday).1 r) (h r).
Proof.
  unfold unique_candidates. cbn [fst].
  eapply same_content_trans; [apply yesterday_identities_content|].
  apply flatten_news_content.
Qed.

(** The candidates are the walk over today's sorted items, with the
    identities of yesterday's items excluded. *)
Lemma unique_candidates_spec (h : heap) (today : NewsData.t)
    (yesterday : option NewsData.t) :
  let fl := _flatten_news h today (NewsData.id_to_name today) in
  let ys := match yesterday with
            | Some y => (_flatten_news fl.1 y (NewsData.id_to_name y)).2
            | None => []
            end in
  let key r := _item_identity (h r) in
  (unique_candidates h today yesterday).2
  = walk key (list_to_set (key <$> ys)) ∅ fl.2.
Proof.
  intros fl ys key. unfold unique_candidates. fold fl. cbn [snd].
  rewrite dedup_fold. rewrite app_nil_l.
  assert (∀ r, _item_identity ((yesterday_identities fl.1 yesterday).1 r) = key r)
    as Hkey.
  { intros r. apply same_content_identity.
    eapply same_content_trans; [apply yesterday_identities_content|].
    apply flatten_news_content. }
  rewrite (walk_ext _ key) by exact Hkey.
  f_equal. rewrite yesterday_identities_spec. fold ys. f_equal.
  apply list_fmap_ext. intros _ r _.
  apply same_content_identity, flatten_news_content.
Qed.

(** C1.  A position of today's flattened, sorted sequence is accepted as a
    candidate exactly when its identity is not an identity of one of
    yesterday's flattened items (there is none without snapshot of
    yesterday) and no earlier position of the sequence has the same
    identity; the candidates are the items at these positions, in the order
    of the sequence.  (The identity of an item does not change with the
    names the flattener writes.) *)
Theorem candidates_characterised (h : heap) (today : NewsData.t)
    (yesterday : option NewsData.t) :
  let fl := _flatten_news h today (NewsData.id_to_name today) in
  let ys := match yesterday with
            | Some y => (_flatten_news fl.1 y (NewsData.id_to_name y)).2
            | None => []
            end in
  let key r := _item_identity (h r) in
  ∃ positions : list nat,
    StronglySorted lt positions ∧
    Forall2 (λ i c, fl.2 !! i = Some c) positions
      (unique_candidates h today yesterday).2 ∧
    ∀ i, i ∈ positions ↔ first_unseen (key <$> fl.2) (key <$> ys) i.
Proof.
  intros fl ys key.
  pose proof (unique_candidates_spec h today yesterday) as Hspec.
  cbv zeta in Hspec. fold fl ys key in Hspec. rewrite Hspec.
  destruct (walk_positions key (list_to_set (key <$> ys)) ∅ fl.2)
    as (ps & Hsorted & Hall & Hiff).
  exists ps. split; [done|]. split; [done|].
  intros i. rewrite Hiff. unfold first_unseen. split.
  - intros (x & Hx & Hx1 & _ & Hx3). exists (key x).
    split; [by rewrite list_lookup_fmap, Hx|].
    split; [by rewrite elem_of_list_to_set in Hx1|].
    intros j k' Hj Hk'. rewrite list_lookup_fmap in Hk'.
    destruct (fl.2 !! j) as [y|] eqn:Hy; [|done].
    injection Hk' as <-. by apply (Hx3 j y).
  - intros (k & Hk & Hk1 & Hk3). rewrite list_lookup_fmap in Hk.
    destruct (fl.2 !! i) as [x|] eqn:Hx; [|done].
    injection Hk as <-. exists x.
    split; [done|]. split; [by rewrite elem_of_list_to_set|].
    split; [apply not_elem_of_empty|].
    intros j y Hj Hy. apply (Hk3 j (key y)); [done|].
    by rewrite list_lookup_fmap, Hy.
Qed.

End DedupProperties.

(** ** Determinism *)




Section Determinism.
Context {collaborators : Collaborators}.
Context (φ : ref → ref) (φ_inj : Inj (=) (=) φ).










End Determinism.


Section DeterminismTheorem.
Context {collaborators : Collaborators}.


End DeterminismTheorem.


(** ** Splitting and joining *)

Lemma split_non_empty (sep : ascii) (n : nat) (s : string) : Py.split sep n s ≠ [].
Proof.
  revert n. induction s as [|c s IH]; intros n; simpl; [done|].
  destruct n as [|n], (Ascii.eqb c sep); try done;
    by destruct (Py.split sep _ s).
Qed.

Lemma split_length (sep : ascii) (n : nat) (s : string) :
  length (Py.split sep n s) = S (Nat.min n (Py.count sep s)).
Proof.
  revert n. induction s as [|c s IH]; intros n; simpl.
  - by rewrite Nat.min_0_r.
  - destruct (Ascii.eqb c sep).
    + destruct n as [|n]; simpl.
      * specialize (IH 0%nat). destruct (Py.split sep 0 s); simpl in *; lia.
      * by rewrite IH.
    + assert (length (match Py.split sep n s with
                      | [] => [String c ""]
                      | piece :: rest => String c piece :: rest
                      end) = length (Py.split sep n s)) as Hlen.
      { pose proof (split_non_empty sep n s). by destruct (Py.split sep n s). }
      destruct n as [|n]; rewrite Hlen, IH; simpl; lia.
Qed.

Lemma split_no_sep (sep : ascii) (n : nat) (s : string) :
  Py.count sep s = 0%nat → Py.split sep n s = [s].
Proof.
  revert n. induction s as [|c s IH]; intros n Hc; simpl in *; [done|].
  destruct (Ascii.eqb c sep); [done|].
  rewrite IH by done. by destruct n.
Qed.

Lemma split_zero (sep : ascii) (s : string) : Py.split sep 0 s = [s].
Proof.
  induction s as [|c s IH]; simpl; [done|]. rewrite IH. by destruct (Ascii.eqb c sep).
Qed.

Lemma split_app_sep (sep : ascii) (n : nat) (a b : string) :
  Py.count sep a = 0%nat →
  Py.split sep (S n) (a +:+ String sep b) = a :: Py.split sep n b.
Proof.
  induction a as [|c a IH]; intros Hc.
  - rewrite str_app_nil. simpl. by rewrite Ascii.eqb_refl.
  - rewrite str_app_cons. simpl in Hc. simpl Py.split.
    destruct (Ascii.eqb c sep); [done|]. by rewrite IH.
Qed.

(** The unpacking of the date raises exactly when the date has fewer than
    two dashes. *)
Lemma unpack_date (date_str : string) :
  Py.unpack3 (Py.split "-" 2 date_str) = None ↔ (Py.count "-" date_str < 2)%nat.
Proof.
  pose proof (split_length "-" 2 date_str) as Hlen.
  destruct (Py.split "-" 2 date_str) as [|y [|m [|d [|e l]]]];
    cbn [length Py.unpack3] in *; split; try done; lia.
Qed.

Lemma unpack_date_some (date_str : string) :
  (2 ≤ Py.count "-" date_str)%nat →
  ∃ y m d, Py.split "-" 2 date_str = [y; m; d].
Proof.
  intros Hc. pose proof (split_length "-" 2 date_str) as Hlen.
  destruct (Py.split "-" 2 date_str) as [|y [|m [|d [|e l]]]];
    cbn [length] in *; try lia. by exists y, m, d.
Qed.

Lemma split_date (Y M D : string) :
  Py.count "-" Y = 0%nat → Py.count "-" M = 0%nat →
  Py.split "-" 2 (Y +:+ "-" +:+ M +:+ "-" +:+ D) = [Y; M; D].
Proof.
  intros HY HM.
  change ("-" +:+ M +:+ "-" +:+ D) with (String "-" (M +:+ String "-" D)).
  rewrite split_app_sep by done. rewrite split_app_sep by done.
  by rewrite split_zero.
Qed.

Lemma all_chars_count (p : ascii → bool) (c : ascii) (s : string) :
  p c = false → all_chars p s = true → Py.count c s = 0%nat.
Proof.
  intros Hc. induction s as [|x s IH]; simpl; [done|].
  intros [Hx Hs]%andb_prop. rewrite IH by done.
  destruct (Ascii.eqb_spec x c) as [->|]; [congruence|done].
Qed.

Lemma digits_plain (s : string) : digits s = true → plain s = true.
Proof.
  unfold digits, plain. intros [Ht Hd]%andb_prop.
  rewrite Ht, (all_chars_count is_digit "/" s) by done. simpl.
  destruct s as [|c [|c' s]]; [done| |].
  - simpl in Hd. rewrite andb_true_r in Hd.
    destruct (Ascii.eqb_spec c ".") as [->|Hne]; [done|].
    simpl. by rewrite (proj2 (Ascii.eqb_neq c ".") Hne).
  - simpl. by destruct (Ascii.eqb c ".").
Qed.

Lemma digits_no_dash (s : string) : digits s = true → Py.count "-" s = 0%nat.
Proof. unfold digits. intros [_ Hd]%andb_prop. by apply (all_chars_count is_digit). Qed.

Lemma join_app (sep : string) (ps qs : list string) :
  ps ≠ [] → qs ≠ [] →
  Py.join sep (ps ++ qs) = Py.join sep ps +:+ sep +:+ Py.join sep qs.
Proof.
  intros Hps Hqs. induction ps as [|p ps IH]; [done|].
  destruct ps as [|p' ps].
  - simpl. by destruct qs.
  - change (Py.join sep ((p :: p' :: ps) ++ qs))
      with (p +:+ sep +:+ Py.join sep ((p' :: ps) ++ qs)).
    rewrite IH by done.
    change (Py.join sep (p :: p' :: ps)) with (p +:+ sep +:+ Py.join sep (p' :: ps)).
    by rewrite !str_app_assoc.
Qed.

(** ** Where the text is stored *)

Lemma plain_spec (s : string) :
  plain s = true → s ≠ "" ∧ s ≠ "." ∧ Py.count "/" s = 0%nat.
Proof.
  unfold plain. intros [[Ht Hd]%andb_prop Hc]%andb_prop.
  split; [by apply truthy_spec|]. split.
  - intros ->. done.
  - by apply Nat.eqb_eq.
Qed.

Lemma div_plain (p : Path.t) (s : string) :
  plain s = true → Path.div p s = Path.mk (Path.root p) (Path.parts p ++ [s]).
Proof.
  intros Hs. pose proof (plain_spec s Hs) as (Hne & Hdot & Hc).
  unfold Path.div, Path.parse, Py.split_all.
  rewrite split_no_sep by done.
  assert (Path.is_absolute s = false) as ->.
  { destruct s as [|c s]; [done|]. simpl in Hc. unfold Path.is_absolute.
    destruct (Ascii.eqb_spec c "/") as [->|Hne']; [done|].
    destruct c as [[] [] [] [] [] [] [] []]; done. }
  simpl. unfold Path.component.
  apply String.eqb_neq in Hne, Hdot. by rewrite Hne, Hdot.
Qed.

Lemma str_extended (base : Path.t) (Y M D filename : string) :
  Path.str (Path.mk (Path.root base) (Path.parts base ++ [Y; M; D; filename]))
  = match Path.parts base with
    | [] => Path.root base
    | _ => Path.str base +:+ "/"
    end +:+ Y +:+ "/" +:+ M +:+ "/" +:+ D +:+ "/" +:+ filename.
Proof.
  destruct base as [r ps]. unfold Path.str. cbn [Path.root Path.parts].
  destruct ps as [|p ps].
  - by destruct r.
  - assert (Py.join "/" ((p :: ps) ++ [Y; M; D; filename])
            = Py.join "/" (p :: ps) +:+ "/" +:+ Y +:+ "/" +:+ M +:+ "/" +:+ D
              +:+ "/" +:+ filename) as Hjoin.
    { by rewrite join_app. }
    destruct r as [|c r].
    + transitivity (Py.join "/" ((p :: ps) ++ [Y; M; D; filename])); [reflexivity|].
      rewrite Hjoin. by rewrite !str_app_nil, !str_app_assoc.
    + transitivity (String c r +:+ Py.join "/" ((p :: ps) ++ [Y; M; D; filename]));
        [reflexivity|].
      rewrite Hjoin. by rewrite !str_app_assoc.
Qed.

Section Storage.
Context {FS : Type} {ops : FileSystemOps FS}.

(** C8, as amended.  [write_ai_hotspots_file] and [build_r2_key] raise at
    the unpacking of the date exactly when the date has fewer than two
    dashes (the date is cut at its first two dashes only);
    [write_ai_hotspots_file] raises then before it touches the file system,
    and otherwise does what its two calls do, [mkdir] of the directory of
    the date and [write_text] of the file: it fails when one of them fails
    and returns the path of the file when both succeed.  For a date of
    three dash-separated strings of digits and a plain file name the
    directory is [base/YYYY/MM/DD] and the file [base/YYYY/MM/DD/filename],
    [base] being the base directory as [pathlib] normalises it, and
    [build_r2_key] returns [prefix/YYYY/MM/DD/filename], [prefix] being the
    trimmed prefix, left out with its slash when it is empty. *)
Theorem date_unpacking (fs : FS) (local_base_dir : string)
    (prefix : option string) (date_str filename content : string) :
  ((Py.count "-" date_str < 2)%nat →
   write_ai_hotspots_file local_base_dir date_str filename content fs
   = (fs, Raise ValueError)) ∧
  (build_r2_key prefix date_str filename = None ↔ (Py.count "-" date_str < 2)%nat) ∧
  ((2 ≤ Py.count "-" date_str)%nat →
   ∃ y m d : string,
     Py.split "-" 2 date_str = [y; m; d] ∧
     let out_dir :=
       Path.div (Path.div (Path.div (Path.parse local_base_dir) y) m) d in
     let out_path := Path.div out_dir filename in
     write_ai_hotspots_file local_base_dir date_str filename content fs
     = (_ ← path_mkdir out_dir;
        _ ← path_write_text out_path content;
        mret (Path.str out_path)) fs) ∧
  ∀ Y M D : string,
    date_str = Y +:+ "-" +:+ M +:+ "-" +:+ D →
    digits Y = true → digits M = true → digits D = true →
    plain filename = true →
    let base := Path.parse local_base_dir in
    let dir := match Path.parts base with
               | [] => Path.root base
               | _ => Path.str base +:+ "/"
               end in
    let trimmed := Py.strip_chars ["/"%char] (Py.strip (default "" prefix)) in
    let tail := Y +:+ "/" +:+ M +:+ "/" +:+ D +:+ "/" +:+ filename in
    let out_dir := Path.mk (Path.root base) (Path.parts base ++ [Y; M; D]) in
    let out_path := Path.mk (Path.root base) (Path.parts base ++ [Y; M; D; filename]) in
    Path.str out_path = dir +:+ tail ∧
    write_ai_hotspots_file local_base_dir date_str filename content fs
    = (_ ← path_mkdir out_dir;
       _ ← path_write_text out_path content;
       mret (dir +:+ tail)) fs ∧
    build_r2_key prefix date_str filename
    = Some ((if Py.truthy trimmed then trimmed +:+ "/" else "") +:+ tail).
Proof.
  split; [|split; [|split]].
  - intros Hc%unpack_date. unfold write_ai_hotspots_file. by rewrite Hc.
  - rewrite <- unpack_date. unfold build_r2_key.
    by destruct (Py.unpack3 _) as [[[y m] d]|].
  - intros Hc. destruct (unpack_date_some date_str Hc) as (y & m & d & Hsplit).
    exists y, m, d. split; [done|]. intros out_dir out_path.
    unfold write_ai_hotspots_file. by rewrite Hsplit.
  - intros Y M D -> HY HM HD Hf base dir trimmed tail out_dir out_path.
    assert (Path.str out_path = dir +:+ tail) as Hstr.
    { subst out_path. rewrite str_extended. by fold dir tail. }
    split; [exact Hstr|]. split.
    + unfold write_ai_hotspots_file.
      rewrite split_date by (by apply digits_no_dash).
      cbn [Py.unpack3]. cbv zeta.
      rewrite !div_plain by (done || by apply digits_plain).
      cbn [Path.root Path.parts]. rewrite <- !(assoc_L (++)). cbn [app].
      fold base out_dir out_path. by rewrite Hstr.
    + unfold build_r2_key. fold trimmed.
      rewrite split_date by (by apply digits_no_dash).
      cbn [Py.unpack3 mbind option_bind]. cbv zeta. f_equal.
      cbn [List.filter].
      assert (Py.truthy Y = true ∧ Py.truthy M = true ∧ Py.truthy D = true
              ∧ Py.truthy filename = true) as (-> & -> & -> & ->).
      { unfold digits, plain in *.
        repeat match goal with
               | H : _ && _ = true |- _ => apply andb_prop in H as [? ?]
               end. done. }
      cbn [List.filter]. destruct (Py.truthy trimmed); [|reflexivity].
      subst tail. cbn [Py.join]. by rewrite !str_app_assoc.
Qed.

End Storage.

(** C8, as stated, fails, on an empty disk.  A date of four dash-separated
    components does not raise: the day takes what follows the second dash.
    A well-formed date does not make the write succeed: a file name that
    names a directory raises.  And the paths are not the plain
    concatenations: an absolute file name leaves the base directory, the
    base directory is normalised, the prefix is trimmed and left out when
    empty, as is an empty file name. *)
Lemma date_claim_fails :
  length (Py.split_all "-" "2024-01-15-rerun") = 4%nat ∧
  build_r2_key None "2024-01-15-rerun" "hotspots.txt"
  = Some "2024/01/15-rerun/hotspots.txt" ∧
  (write_ai_hotspots_file "out" "2024-01-15-rerun" "hotspots.txt" "text" Posix.empty).2
  = Ok "out/2024/01/15-rerun/hotspots.txt" ∧
  (write_ai_hotspots_file "out" "2024-01-15" ".." "text" Posix.empty).2
  = Raise IsADirectoryError ∧
  (write_ai_hotspots_file "out" "2024-01-15" "" "text" Posix.empty).2
  = Raise IsADirectoryError ∧
  (write_ai_hotspots_file "out" "2024-01-15" "/hotspots.txt" "text" Posix.empty).2
  = Ok "/hotspots.txt" ∧
  (write_ai_hotspots_file "out/" "2024-01-15" "hotspots.txt" "text" Posix.empty).2
  = Ok "out/2024/01/15/hotspots.txt" ∧
  build_r2_key (Some "/exports/") "2024-01-15" "hotspots.txt"
  = Some "exports/2024/01/15/hotspots.txt" ∧
  build_r2_key (Some "") "2024-01-15" "hotspots.txt" = Some "2024/01/15/hotspots.txt" ∧
  build_r2_key (Some "exports") "2024-01-15" "" = Some "exports/2024/01/15".
Proof. repeat split; reflexivity. Qed.

(** ** The segments of a key *)

Lemma count_le_length (sep : ascii) (s : string) : (Py.count sep s ≤ String.length s)%nat.
Proof. induction s as [|c s IH]; simpl; [done|]. destruct (Ascii.eqb c sep); lia. Qed.

Lemma split_enough (sep : ascii) (n m : nat) (s : string) :
  (Py.count sep s ≤ n)%nat → (Py.count sep s ≤ m)%nat →
  Py.split sep n s = Py.split sep m s.
Proof.
  revert n m. induction s as [|c s IH]; intros n m Hn Hm; simpl in *; [done|].
  destruct (Ascii.eqb c sep).
  - destruct n as [|n], m as [|m]; try lia. f_equal. apply IH; lia.
  - rewrite (IH n m) by lia. by destruct n, m.
Qed.

Lemma split_all_cons (sep c : ascii) (s : string) :
  Py.split_all sep (String c s)
  = if Ascii.eqb c sep then "" :: Py.split_all sep s
    else match Py.split_all sep s with
         | piece :: rest => String c piece :: rest
         | [] => [String c ""]
         end.
Proof.
  unfold Py.split_all. simpl.
  pose proof (count_le_length sep s).
  rewrite (split_enough sep (S (String.length s)) (String.length s) s) by lia.
  done.
Qed.

Lemma split_all_app_sep (sep : ascii) (a b : string) :
  Py.split_all sep (a +:+ String sep b) = Py.split_all sep a ++ Py.split_all sep b.
Proof.
  induction a as [|c a IH].
  - rewrite str_app_nil, split_all_cons, Ascii.eqb_refl. done.
  - rewrite str_app_cons, !split_all_cons, IH.
    destruct (Ascii.eqb c sep); [done|].
    pose proof (split_non_empty sep (String.length a) a) as Hne.
    fold (Py.split_all sep a) in Hne. by destruct (Py.split_all sep a).
Qed.

Lemma split_all_join (sep : ascii) (parts : list string) :
  parts ≠ [] →
  Py.split_all sep (Py.join (String sep "") parts) = concat (Py.split_all sep <$> parts).
Proof.
  intros Hne. induction parts as [|p ps IH]; [done|].
  destruct ps as [|p' ps].
  - simpl. by rewrite app_nil_r.
  - change (Py.join (String sep "") (p :: p' :: ps))
      with (p +:+ String sep (Py.join (String sep "") (p' :: ps))).
    rewrite split_all_app_sep, IH by done. done.
Qed.

Lemma leading_slash_segment (s : string) : leading_slash s = true → empty_segment s.
Proof.
  unfold empty_segment. destruct s as [|c s]; [done|].
  unfold leading_slash. intros Hc.
  assert (c = "/"%char) as -> by (by destruct c as [[] [] [] [] [] [] [] []]).
  rewrite split_all_cons. simpl. apply elem_of_cons. by left.
Qed.

Lemma trailing_slash_segment (s : string) : trailing_slash s = true → empty_segment s.
Proof.
  unfold empty_segment. intros Hs.
  assert (∃ l, Py.split_all "/" s = l ++ [""] ∧ l ≠ []) as (l & -> & _).
  { induction s as [|c s IH]; [done|].
    rewrite split_all_cons. destruct s as [|c' s].
    - simpl in Hs. rewrite Hs. by exists [""].
    - destruct (IH Hs) as (l & -> & Hl).
      destruct (Ascii.eqb c "/").
      + exists ("" :: l). done.
      + destruct l as [|p l]; [done|]. by exists (String c p :: l). }
  apply elem_of_app. right. apply elem_of_cons. by left.
Qed.

(** C10, as amended.  For a date with at least two dashes [build_r2_key]
    succeeds, and the key is the trimmed prefix, the year, the month, the
    day and the file name, those that are not empty, joined by slashes.
    When none of these components has an empty segment of its own, the key
    begins with no slash, ends with no slash and has no empty segment. *)
Theorem r2_key_segments (prefix : option string) (date_str filename : string) :
  (2 ≤ Py.count "-" date_str)%nat →
  ∃ y m d : string,
    Py.split "-" 2 date_str = [y; m; d] ∧
    let trimmed := Py.strip_chars ["/"%char] (Py.strip (default "" prefix)) in
    let components := [trimmed; y; m; d; filename] in
    let key := Py.join "/" (List.filter Py.truthy components) in
    build_r2_key prefix date_str filename = Some key ∧
    ((∀ c, c ∈ components → c ≠ "" → ¬ empty_segment c) →
     leading_slash key = false ∧ trailing_slash key = false ∧
     (key ≠ "" → ¬ empty_segment key)).
Proof.
  intros Hc. destruct (unpack_date_some date_str Hc) as (y & m & d & Hsplit).
  exists y, m, d. split; [done|]. intros trimmed components key.
  split.
  { unfold build_r2_key. by rewrite Hsplit. }
  intros Hclean.
  assert (key = "" ∨ ¬ empty_segment key) as Hkey.
  { subst key. destruct (List.filter Py.truthy components) as [|p ps] eqn:Hps;
      [by left|right].
    unfold empty_segment. rewrite <- Hps.
    rewrite (split_all_join "/") by (by rewrite Hps).
    rewrite list_elem_of_In, in_concat. intros (l & Hl & Hin).
    apply list_elem_of_In, list_elem_of_fmap in Hl as (c & -> & Hc').
    apply list_elem_of_In, filter_In in Hc' as [Hc1 Hc2].
    apply (Hclean c); [by apply list_elem_of_In|by apply truthy_spec|].
    by apply list_elem_of_In. }
  split; [|split].
  - destruct Hkey as [->|Hkey]; [done|].
    destruct (leading_slash key) eqn:Hl; [|done].
    by apply leading_slash_segment in Hl.
  - destruct Hkey as [->|Hkey]; [done|].
    destruct (trailing_slash key) eqn:Ht; [|done].
    by apply trailing_slash_segment in Ht.
  - intros Hne. by destruct Hkey.
Qed.

(** C10, as stated, fails: a slash inside a component stays in the key.  A
    prefix with two slashes in a row gives a key with an empty segment, a
    file name that ends with a slash a key that ends with a slash. *)
Lemma key_with_empty_segment :
  build_r2_key (Some "exports//ai") "2024-01-15" "hotspots.txt"
  = Some "exports//ai/2024/01/15/hotspots.txt" ∧
  empty_segment "exports//ai/2024/01/15/hotspots.txt" ∧
  build_r2_key None "2024-01-15" "hotspots/" = Some "2024/01/15/hotspots/" ∧
  trailing_slash "2024/01/15/hotspots/" = true.
Proof.
  split; [reflexivity|]. split; [|split; reflexivity].
  unfold empty_segment. apply list_elem_of_In. vm_compute. tauto.
Qed.

(** ** The module on concrete inputs *)

Example split_examples :
  Py.split "-" 2 "2024-01-15" = ["2024"; "01"; "15"] ∧
  Py.split "-" 2 "a-b-c-d" = ["a"; "b"; "c-d"] ∧
  Py.split "-" 2 "20240115" = ["20240115"] ∧
  Py.split_all "/" "a//b/" = ["a"; ""; "b"; ""].
Proof. repeat split; reflexivity. Qed.

Example strip_examples :
  Py.strip "  http://x.com/a  " = "http://x.com/a" ∧
  Py.strip_chars ["/"%char] "//a/b/" = "a/b" ∧
  Py.lower "Hello World" = "hello world".
Proof. repeat split; reflexivity. Qed.

Example str_of_int_examples :
  Py.str_of_int 12 = "12" ∧ Py.str_of_int 0 = "0" ∧ Py.str_of_int (-7) = "-7".
Proof. repeat split; reflexivity. Qed.

Example sort_keeps_ties_in_order :
  Py.sort (λ a b : Z * string, (a.1 <? b.1)%Z) [(2, "a"); (1, "b"); (2, "c"); (1, "d")]
  = [(1, "b"); (1, "d"); (2, "a"); (2, "c")].
Proof. reflexivity. Qed.

Example path_examples :
  Path.str (Path.div (Path.parse "out/") "2024") = "out/2024" ∧
  Path.str (Path.div (Path.parse "") "2024") = "2024" ∧
  Path.str (Path.div (Path.parse "/") "2024") = "/2024" ∧
  Path.str (Path.div (Path.parse "out") "/etc") = "/etc".
Proof. repeat split; reflexivity. Qed.

Example sample_flattened :
  (_flatten_news sample_heap sample_today (NewsData.id_to_name sample_today)).2
  = [1; 0; 5; 2; 3]%nat.
Proof. reflexivity. Qed.

Example sample_candidates :
  (unique_candidates sample_heap sample_today (Some sample_yesterday)).2 = [1; 5; 3]%nat ∧
  (unique_candidates sample_heap sample_today None).2 = [1; 0; 5; 3]%nat.
Proof. split; reflexivity. Qed.

Example sample_lines :
  (build_daily_unique_hotspots sample_heap sample_today (Some sample_yesterday) 2).2
  = ([mk_AiHotspotLine 1 "weibo" "Weibo" "Beta" "" "" 1;
      mk_AiHotspotLine 2 "zhihu" "zhihu" "Delta" "http://x.com/d" "" 3], 3).
Proof. reflexivity. Qed.

Example sample_body_lines :
  body_line <$> (build_daily_unique_hotspots sample_heap sample_today None 0).2.1
  = ["1. [platform=Weibo] [platform_id=weibo] Beta [RANK:1]";
     "2. [platform=Weibo] [platform_id=weibo] Alpha [URL:http://x.com/a] [RANK:2]";
     "3. [platform=zhihu] [platform_id=zhihu] Delta [URL:http://x.com/d] [RANK:3]";
     "4. [platform=zhihu] [platform_id=zhihu] Gamma [URL:http://x.com/g] [RANK:1000]"].
Proof. reflexivity. Qed.

(** An object listed under two platform ids is one object: it carries the
    name of the last id, at both of its occurrences. *)
Example shared_object_takes_last_name :
  let data := NewsData.mk [("weibo", [1]%nat); ("zhihu", [1]%nat)]
                          {[ "weibo" := "Weibo"; "zhihu" := "Zhihu" ]} in
  let out := _flatten_news sample_heap data (NewsData.id_to_name data) in
  out.2 = [1; 1]%nat ∧ NewsItem.source_name (out.1 1%nat) = "Zhihu".
Proof. split; reflexivity. Qed.

(** The positions 0, 2 and 4 of today's sorted sequence are the
    candidates of the sample run. *)
Lemma candidates_characterised_witness :
  ∃ positions : list nat,
    Forall2 (λ i c, [1; 0; 5; 2; 3]%nat !! i = Some c) positions [1; 5; 3]%nat ∧
    StronglySorted lt positions.
Proof.
  destruct (candidates_characterised sample_heap sample_today (Some sample_yesterday))
    as (ps & Hsorted & Hall & _).
  exists ps. split; [exact Hall|exact Hsorted].
Defined.


Lemma truncation_witness :
  0 < 2 ∧
  length (build_daily_unique_hotspots sample_heap sample_today None 2).2.1 = 2%nat ∧
  (build_daily_unique_hotspots sample_heap sample_today None 2).2.2 = 4.
Proof.
  destruct (truncation sample_heap sample_today None 2) as (Htotal & _ & Hpos & _).
  split; [lia|]. split.
  - destruct Hpos as [Hlen _]; [lia|]. exact Hlen.
  - exact Htotal.
Defined.

Lemma identity_resolver_witness :
  Py.strip (default "" (NewsItem.url (sample_heap 3%nat))) ≠ "" ∧
  _item_identity (sample_heap 3%nat) = "url:http://x.com/g" ∧
  Py.strip (default "" (NewsItem.url (sample_heap 1%nat))) = "" ∧
  _item_identity (sample_heap 1%nat) = "title:beta" ∧
  NewsItem.title (sample_heap 6%nat) = "" ∧
  default "" (NewsItem.url (sample_heap 6%nat)) = "" ∧
  clean_title "" = "" ∧
  _item_identity (sample_heap 6%nat) = "title:".
Proof.
  assert (Py.strip (default "" (NewsItem.url (sample_heap 3%nat))) ≠ "") as H3 by done.
  split; [exact H3|].
  split; [exact (proj1 (identity_resolver (sample_heap 3%nat)) H3)|].
  split; [reflexivity|].
  split; [exact (proj1 (proj2 (identity_resolver (sample_heap 1%nat))) eq_refl)|].
  split; [reflexivity|]. split; [reflexivity|]. split; [reflexivity|].
  exact (proj2 (proj2 (identity_resolver (sample_heap 6%nat))) eq_refl eq_refl eq_refl).
Defined.

Lemma flatten_sorted_witness :
  let out := _flatten_news sample_heap sample_today (NewsData.id_to_name sample_today) in
  out.2 !! 1%nat = Some 0%nat ∧ out.2 !! 3%nat = Some 2%nat ∧
  NewsItem.rank (out.1 0%nat) = Some 2 ∧ 2 ≠ 0 ∧ 2 < UNRANKED ∧
  ¬ ranked (out.1 2%nat) ∧ (1 < 3)%nat.
Proof.
  intros out.
  assert (¬ ranked (out.1 2%nat)) as Hb.
  { intros (r & Hr & _). vm_compute in Hr. discriminate. }
  assert (2 ≠ 0) as H20 by lia.
  assert (2 < UNRANKED) as H2 by (unfold UNRANKED; lia).
  repeat (split; [first [reflexivity|assumption]|]).
  exact (proj2 (flatten_sorted sample_heap sample_today (NewsData.id_to_name sample_today))
           1%nat 3%nat 0%nat 2%nat 2 eq_refl eq_refl eq_refl H20 H2 Hb).
Defined.

Lemma source_name_resolution_witness :
  let names := NewsData.id_to_name sample_today in
  let out := _flatten_news sample_heap sample_today names in
  0%nat ∈ out.2 ∧
  ∃ (pre post : list (string * list ref)) (k : string) (l : list ref),
    NewsData.items sample_today = pre ++ (k, l) :: post ∧
    0%nat ∈ l ∧
    (∀ e, e ∈ post → 0%nat ∉ e.2) ∧
    NewsItem.source_name (out.1 0%nat)
    = default "" (first_non_empty [names !! k; names !! k; Some k]) ∧
    (k ≠ "" → NewsItem.source_name (out.1 0%nat) ≠ "").
Proof.
  intros names out.
  assert (0%nat ∈ out.2) as Hin.
  { apply list_elem_of_In. vm_compute. tauto. }
  split; [exact Hin|].
  exact (source_name_resolution sample_heap sample_today names 0%nat Hin).
Defined.

Lemma date_unpacking_witness :
  let written :=
    write_ai_hotspots_file "out/" "2024-01-15" "hotspots.txt" "text" Posix.empty in
  digits "2024" = true ∧ digits "01" = true ∧ digits "15" = true ∧
  plain "hotspots.txt" = true ∧
  written.2 = Ok "out/2024/01/15/hotspots.txt" ∧
  Posix.node_at written.1 ["out"; "2024"; "01"; "15"; "hotspots.txt"]
  = Some (Posix.File "text") ∧
  Posix.node_at written.1 ["out"; "2024"; "01"; "15"] = Some Posix.Dir ∧
  build_r2_key (Some " /exports/ai/ ") "2024-01-15" "hotspots.txt"
  = Some "exports/ai/2024/01/15/hotspots.txt".
Proof.
  intros written.
  destruct (proj2 (proj2 (proj2 (date_unpacking Posix.empty "out/"
                                   (Some " /exports/ai/ ") "2024-01-15"
                                   "hotspots.txt" "text")))
              "2024" "01" "15" eq_refl eq_refl eq_refl eq_refl eq_refl)
    as (_ & Hwrite & Hkey).
  do 4 (split; [reflexivity|]).
  subst written. rewrite Hwrite.
  do 3 (split; [reflexivity|]).
  exact Hkey.
Defined.

Lemma body_line_segments_witness :
  let it := mk_AiHotspotLine 2 "weibo" "Weibo" "Alpha" "http://x.com/a" "" 2 in
  url it ≠ "" ∧ rank it ≠ 0 ∧ mobile_url it = "" ∧
  body_line it
  = "2. [platform=Weibo] [platform_id=weibo] Alpha [URL:http://x.com/a] [RANK:2]".
Proof.
  intros it.
  assert (url it ≠ "") as Hu by done.
  assert (rank it ≠ 0) as Hr by done.
  split; [exact Hu|]. split; [exact Hr|]. split; [reflexivity|].
  exact (proj2 (proj2 (body_line_segments it)) Hu Hr eq_refl).
Defined.

Lemma r2_key_segments_witness :
  (2 ≤ Py.count "-" "2024--15")%nat ∧
  build_r2_key None "2024--15" "hotspots.txt" = Some "2024/15/hotspots.txt" ∧
  leading_slash "2024/15/hotspots.txt" = false ∧
  trailing_slash "2024/15/hotspots.txt" = false ∧
  ¬ empty_segment "2024/15/hotspots.txt".
Proof.
  assert (2 ≤ Py.count "-" "2024--15")%nat as Hc by (vm_compute; lia).
  destruct (r2_key_segments None "2024--15" "hotspots.txt" Hc)
    as (y & m & d & Hsplit & Hkey & Hclean).
  injection Hsplit as <- <- <-.
  split; [exact Hc|]. split; [exact Hkey|].
  destruct Hclean as (Hl & Ht & He).
  { intros c Hin Hne Hseg.
    repeat (apply elem_of_cons in Hin as [->|Hin]);
      try (by apply Hne);
      try (apply list_elem_of_In in Hseg; vm_compute in Hseg; intuition discriminate).
    by apply elem_of_nil in Hin. }
  split; [exact Hl|]. split; [exact Ht|]. apply He. discriminate.
Defined.

(** * Further properties of the module *)

(** ** The flattener *)

Section FlattenerExtras.
Context {collaborators : Collaborators}.

(** X1.  The flattener loses no item and invents none: the flattened
    sequence is a rearrangement of the items of all platforms, each as often
    as the snapshot lists it. *)
Theorem flatten_permutation (h : heap) (data : NewsData.t)
    (id_to_name : gmap string string) :
  (_flatten_news h data id_to_name).2 ≡ₚ concat ((NewsData.items data).*2).
Proof.
  destruct (flatten_news_spec h data id_to_name) as [_ ->].
  apply sort_perm.
Qed.

Lemma key_ltb_irrefl (a : Z * string * string) : key_ltb a a = false.
Proof.
  unfold key_ltb. pose proof (key_compare_antisym a a) as Ha.
  by destruct (key_compare a a).
Qed.

(** X2.  Items with the same sort key (rank, platform id, cleaned title)
    keep the order in which the snapshot lists them. *)
Theorem flatten_stable (h : heap) (data : NewsData.t)
    (id_to_name : gmap string string) (k : Z * string * string) :
  List.filter (λ r, bool_decide (sort_key (h r) = k)) (_flatten_news h data id_to_name).2
  = List.filter (λ r, bool_decide (sort_key (h r) = k))
      (concat ((NewsData.items data).*2)).
Proof.
  destruct (flatten_news_spec h data id_to_name) as [_ ->].
  apply sort_stable. intros a b Ha Hb.
  apply bool_decide_eq_true_1 in Ha, Hb. rewrite Ha, Hb.
  apply key_ltb_irrefl.
Qed.

(** X3.  An item with a URL and an item without one (none, empty or
    blank) never have the same identity, whatever the collaborators
    return. *)
Theorem identity_kinds_disjoint (a b : NewsItem.t) :
  Py.strip (default "" (NewsItem.url a)) ≠ "" →
  Py.strip (default "" (NewsItem.url b)) = "" →
  _item_identity a ≠ _item_identity b.
Proof.
  intros Ha Hb. unfold _item_identity.
  apply truthy_spec in Ha. apply truthy_false in Hb. rewrite Ha, Hb.
  discriminate.
Qed.

End FlattenerExtras.

(** ** The deduplications *)

Lemma walk_identities (key : ref → string) (excluded seen : gset string)
    (today : list ref) :
  NoDup (key <$> walk key excluded seen today) ∧
  ∀ k, k ∈ key <$> walk key excluded seen today
       ↔ k ∈ key <$> today ∧ (k ∉ excluded) ∧ (k ∉ seen).
Proof.
  revert seen. induction today as [|x l IH]; intros seen.
  { split; [constructor|]. intros k. split; [by intros ?%elem_of_nil|].
    by intros [?%elem_of_nil _]. }
  cbn [walk]. rewrite fmap_cons.
  destruct (bool_decide_reflect (key x ∈ excluded)) as [Hex|Hex];
    [|destruct (bool_decide_reflect (key x ∈ seen)) as [Hseen|Hseen]].
  - destruct (IH seen) as [Hnd Hiff]. split; [done|].
    intros k. rewrite Hiff, elem_of_cons. split; [tauto|].
    intros ([->|Hk] & Hk1 & Hk2); tauto.
  - destruct (IH seen) as [Hnd Hiff]. split; [done|].
    intros k. rewrite Hiff, elem_of_cons. split; [tauto|].
    intros ([->|Hk] & Hk1 & Hk2); tauto.
  - destruct (IH ({[key x]} ∪ seen)) as [Hnd Hiff]. rewrite fmap_cons. split.
    + constructor; [|done]. rewrite Hiff. intros (_ & _ & Hk).
      apply Hk, elem_of_union. left. by apply elem_of_singleton.
    + intros k. rewrite !elem_of_cons, Hiff, not_elem_of_union, not_elem_of_singleton.
      split.
      * intros [->|(Hk & Hk1 & Hk2 & Hk3)]; [tauto|tauto].
      * intros ([->|Hk] & Hk1 & Hk2); [by left|].
        destruct (decide (k = key x)) as [->|Hne]; [by left|]. right. tauto.
Qed.

Lemma walk_all_excluded (key : ref → string) (excluded seen : gset string)
    (today : list ref) :
  (∀ x, x ∈ today → key x ∈ excluded) → walk key excluded seen today = [].
Proof.
  induction today as [|x l IH]; intros Hall; [done|].
  cbn [walk]. rewrite bool_decide_eq_true_2 by (apply Hall, elem_of_cons; by left).
  apply IH. intros y Hy. apply Hall, elem_of_cons. by right.
Qed.

(** The deduplication against yesterday commutes with the one within the
    day. *)
Lemma walk_filter (key : ref → string) (excluded seen seen' : gset string)
    (today : list ref) :
  (∀ k, k ∉ excluded → k ∈ seen ↔ k ∈ seen') →
  walk key excluded seen today
  = List.filter (λ r, bool_decide (key r ∉ excluded)) (walk key ∅ seen' today).
Proof.
  revert seen seen'. induction today as [|x l IH]; intros seen seen' Hs; [done|].
  cbn [walk]. rewrite (bool_decide_eq_false_2 (key x ∈ ∅)) by apply not_elem_of_empty.
  destruct (bool_decide_reflect (key x ∈ excluded)) as [Hex|Hex].
  - destruct (bool_decide_reflect (key x ∈ seen')) as [Hseen|Hseen]; [by apply IH|].
    cbn [List.filter]. rewrite (bool_decide_eq_false_2 (key x ∉ excluded)) by tauto.
    apply IH. intros k Hk. rewrite elem_of_union, elem_of_singleton, (Hs k Hk).
    split; [tauto|]. intros [->|?]; [done|tauto].
  - destruct (bool_decide_reflect (key x ∈ seen)) as [Hseen|Hseen].
    + rewrite (bool_decide_eq_true_2 (key x ∈ seen')) by (by apply (Hs _ Hex)).
      by apply IH.
    + rewrite (bool_decide_eq_false_2 (key x ∈ seen'))
        by (intros Hx; by apply Hseen, (Hs _ Hex)).
      cbn [List.filter]. rewrite (bool_decide_eq_true_2 (key x ∉ excluded)) by done.
      f_equal. apply IH. intros k Hk.
      rewrite !elem_of_union, (Hs k Hk). tauto.
Qed.

Section DedupExtras.
Context {collaborators : Collaborators}.

(** X4.  The identities of the candidates are today's identities that are
    not among yesterday's, each of them once. *)
Theorem candidate_identities (h : heap) (today : NewsData.t)
    (yesterday : option NewsData.t) :
  let fl := _flatten_news h today (NewsData.id_to_name today) in
  let ys := match yesterday with
            | Some y => (_flatten_news fl.1 y (NewsData.id_to_name y)).2
            | None => []
            end in
  let key r := _item_identity (h r) in
  let candidates := (unique_candidates h today yesterday).2 in
  NoDup (key <$> candidates) ∧
  ∀ k, k ∈ key <$> candidates ↔ k ∈ key <$> fl.2 ∧ (k ∉ key <$> ys).
Proof.
  intros fl ys key candidates. subst candidates.
  pose proof (unique_candidates_spec h today yesterday) as Hspec.
  cbv zeta in Hspec. fold fl ys key in Hspec. rewrite Hspec.
  destruct (walk_identities key (list_to_set (key <$> ys)) ∅ fl.2) as [Hnd Hiff].
  split; [done|]. intros k. rewrite Hiff, elem_of_list_to_set.
  split; [tauto|]. intros [? ?]. split; [done|]. split; [done|].
  apply not_elem_of_empty.
Qed.

(** X5.  A snapshot compared with itself has nothing new: no line, and
    no candidate. *)
Theorem dedup_against_self (h : heap) (today : NewsData.t) (max_items : Z) :
  (build_daily_unique_hotspots h today (Some today) max_items).2 = ([], 0).
Proof.
  assert ((unique_candidates h today (Some today)).2 = []) as Hcs.
  { rewrite unique_candidates_spec. cbv zeta.
    rewrite (flatten_news_agree _ h today _)
      by (intros r; apply flatten_news_content).
    apply walk_all_excluded. intros x Hx.
    apply elem_of_list_to_set.
    by apply (list_elem_of_fmap_2 (λ r, _item_identity (h r))). }
  unfold build_daily_unique_hotspots. cbn [snd]. rewrite Hcs.
  unfold Py.slice_to. rewrite take_nil. by destruct (0 <? max_items).
Qed.

(** X6.  The two deduplications commute: the candidates with a snapshot of
    yesterday are the candidates without one from which the identities
    seen yesterday are removed. *)
Theorem cross_day_is_filter (h : heap) (today : NewsData.t)
    (yesterday : option NewsData.t) :
  let fl := _flatten_news h today (NewsData.id_to_name today) in
  let ys := match yesterday with
            | Some y => (_flatten_news fl.1 y (NewsData.id_to_name y)).2
            | None => []
            end in
  let key r := _item_identity (h r) in
  (unique_candidates h today yesterday).2
  = List.filter (λ r, bool_decide (key r ∉ key <$> ys))
      (unique_candidates h today None).2.
Proof.
  intros fl ys key.
  pose proof (unique_candidates_spec h today yesterday) as Hy.
  pose proof (unique_candidates_spec h today None) as Hn.
  cbv zeta in Hy, Hn. fold fl ys key in Hy. fold fl key in Hn.
  rewrite Hy, Hn. cbn [fmap list_fmap list_to_set foldr].
  rewrite (walk_filter key (list_to_set (key <$> ys)) ∅ ∅) by done.
  apply filter_ext. intros r. apply bool_decide_ext.
  by rewrite elem_of_list_to_set.
Qed.

(** X7.  Of today's items with one identity the candidate is the first in
    the order of the sort: no item with the identity of a candidate has a
    smaller sort key. *)
Theorem best_duplicate_survives (h : heap) (today : NewsData.t)
    (yesterday : option NewsData.t) (c x : ref) :
  c ∈ (unique_candidates h today yesterday).2 →
  x ∈ (_flatten_news h today (NewsData.id_to_name today)).2 →
  _item_identity (h x) = _item_identity (h c) →
  tuple_le (sort_key (h c)) (sort_key (h x)).
Proof.
  intros Hc Hx Hkey.
  set (ts := (_flatten_news h today (NewsData.id_to_name today)).2) in *.
  set (key := λ r, _item_identity (h r)).
  assert (StronglySorted
            (λ a b, key_ltb (sort_key (h b)) (sort_key (h a)) = false) ts) as Hsorted.
  { subst ts. destruct (flatten_news_spec h today (NewsData.id_to_name today)) as [_ ->].
    apply (sort_sorted (λ a b, key_ltb (sort_key (h a)) (sort_key (h b)))).
    - intros a b. apply key_ltb_asym.
    - intros a b d. apply key_le_trans. }
  rewrite unique_candidates_spec in Hc. cbv zeta in Hc. fold ts key in Hc.
  set (seen_yesterday := list_to_set _ : gset string) in Hc.
  destruct (walk_positions key seen_yesterday ∅ ts) as (ps & _ & Hall & Hiff).
  apply list_elem_of_lookup_1 in Hc as [n Hn].
  destruct (Forall2_lookup_r _ _ _ _ _ Hall Hn) as (i & Hi & Hic).
  apply list_elem_of_lookup_2, Hiff in Hi as (c' & Hc' & _ & _ & Hfirst).
  assert (c' = c) as -> by congruence.
  apply list_elem_of_lookup_1 in Hx as [j Hj].
  apply key_le_tuple_le.
  destruct (decide (j < i)%nat) as [Hlt|Hge].
  { exfalso. by apply (Hfirst j x Hlt Hj). }
  destruct (decide (i = j)) as [->|Hne].
  - assert (x = c) as -> by congruence. apply key_ltb_irrefl.
  - apply (StronglySorted_lookup_lt _ _ i j c x Hsorted); [done|done|lia].
Qed.

End DedupExtras.

(** ** The exported lines and the state the run leaves *)

Lemma enumerate_lookup {A} (l : list A) (start : Z) (i : nat) :
  Py.enumerate l start !! i = (λ x, (start + Z.of_nat i, x)) <$> l !! i.
Proof.
  revert start i. induction l as [|x l IH]; intros start [|i]; simpl; try done.
  - by rewrite Z.add_0_r.
  - rewrite IH. destruct (l !! i); simpl; [|done]. do 2 f_equal. lia.
Qed.

Lemma last_listing_unlisted (entries : list (string * list ref)) (r : ref) :
  (∀ e, e ∈ entries → r ∉ e.2) → last_listing entries r = None.
Proof.
  intros Hun. destruct (last_listing entries r) as [e|] eqn:He; [|done].
  destruct (last_listing_some _ _ _ He) as (pre & post & -> & Hr & _).
  exfalso. apply (Hun e); [|done].
  apply elem_of_app. right. apply elem_of_cons. by left.
Qed.

Section LineExtras.
Context {collaborators : Collaborators}.

Lemma flatten_news_unlisted (h : heap) (data : NewsData.t)
    (id_to_name : gmap string string) (r : ref) :
  (∀ e, e ∈ NewsData.items data → r ∉ e.2) →
  (_flatten_news h data id_to_name).1 r = h r.
Proof.
  intros Hun. destruct (flatten_news_spec h data id_to_name) as [-> _].
  unfold heap_after. by rewrite last_listing_unlisted.
Qed.

(** A candidate is an object of today's snapshot that yesterday's snapshot
    does not list. *)
Lemma candidate_listing (h : heap) (today : NewsData.t)
    (yesterday : option NewsData.t) (r : ref) :
  r ∈ (unique_candidates h today yesterday).2 →
  is_Some (last_listing (NewsData.items today) r) ∧
  ∀ y e, yesterday = Some y → e ∈ NewsData.items y → r ∉ e.2.
Proof.
  intros Hr. rewrite unique_candidates_spec in Hr. cbv zeta in Hr.
  set (key := λ r, _item_identity (h r)) in Hr.
  set (fl := _flatten_news h today (NewsData.id_to_name today)) in Hr.
  split.
  - apply walk_subseteq, flatten_news_elem_of in Hr.
    by apply last_listing_listed.
  - intros y e -> He Hin.
    apply (list_elem_of_fmap_2 key) in Hr.
    apply walk_identities in Hr as (_ & Hex & _).
    apply Hex, elem_of_list_to_set, (list_elem_of_fmap_2 key).
    apply flatten_news_elem_of. by exists e.
Qed.

Lemma candidate_state (h : heap) (today : NewsData.t)
    (yesterday : option NewsData.t) (r : ref) (e : string * list ref) :
  r ∈ (unique_candidates h today yesterday).2 →
  last_listing (NewsData.items today) r = Some e →
  (unique_candidates h today yesterday).1 r
  = NewsItem.set_source_name
      (resolve_name (NewsData.id_to_name today) today e.1) (h r).
Proof.
  intros Hr He. destruct (candidate_listing h today yesterday r Hr) as [_ Hun].
  assert ((_flatten_news h today (NewsData.id_to_name today)).1 r
          = NewsItem.set_source_name
              (resolve_name (NewsData.id_to_name today) today e.1) (h r)) as Hfl.
  { destruct (flatten_news_spec h today (NewsData.id_to_name today)) as [-> _].
    unfold heap_after. by rewrite He. }
  unfold unique_candidates. cbn [fst].
  destruct yesterday as [y|]; unfold yesterday_identities; cbn [fst]; [|done].
  rewrite flatten_news_unlisted; [done|]. intros e' He'. by apply (Hun y).
Qed.

(** X8.  Every line is made of the fields of a candidate as the caller
    passed them, and of a display name resolved by today's snapshot alone:
    the line at position [i] has the index [i + 1], the platform id, the
    cleaned title, the trimmed URLs and the rank of the candidate at
    position [i], and for name the one resolved for the platform that lists
    the candidate today, the platform id of the item when that name is
    empty.  The names of yesterday's snapshot never reach a line. *)
Theorem line_contents (h : heap) (today : NewsData.t)
    (yesterday : option NewsData.t) (max_items : Z) (i : nat) (line : AiHotspotLine) :
  (build_daily_unique_hotspots h today yesterday max_items).2.1 !! i = Some line →
  ∃ (r : ref) (e : string * list ref),
    (unique_candidates h today yesterday).2 !! i = Some r ∧
    last_listing (NewsData.items today) r = Some e ∧
    line = {| idx := Z.of_nat (S i);
              platform_id := NewsItem.source_id (h r);
              platform_name :=
                Py.or_else (Some (resolve_name (NewsData.id_to_name today) today e.1))
                  (NewsItem.source_id (h r));
              title := clean_title (NewsItem.title (h r));
              url := Py.strip (default "" (NewsItem.url (h r)));
              mobile_url := Py.strip (default "" (NewsItem.mobile_url (h r)));
              rank := Py.int_or (NewsItem.rank (h r)) 0 |}.
Proof.
  rewrite build_lines. cbv zeta. intros Hline.
  rewrite list_lookup_fmap, enumerate_lookup in Hline.
  set (kept := if 0 <? max_items then _ else _) in Hline.
  destruct (kept !! i) as [r|] eqn:Hkept; [|done].
  cbn [fmap option_fmap option_map] in Hline.
  assert (line = hotspot_line (unique_candidates h today yesterday).1
                   (1 + Z.of_nat i, r)) as -> by congruence.
  clear Hline.
  assert ((unique_candidates h today yesterday).2 !! i = Some r) as Hcs.
  { subst kept. destruct (0 <? max_items); [|done].
    by apply lookup_take_Some in Hkept as [? _]. }
  pose proof (list_elem_of_lookup_2 _ _ _ Hcs) as Hr.
  destruct (candidate_listing h today yesterday r Hr) as [[e He] _].
  exists r, e. split; [done|]. split; [done|].
  unfold hotspot_line. cbn [fst snd].
  rewrite (candidate_state h today yesterday r e Hr He).
  unfold NewsItem.set_source_name.
  cbn [NewsItem.title NewsItem.source_id NewsItem.source_name NewsItem.url
       NewsItem.mobile_url NewsItem.rank].
  f_equal. lia.
Qed.

(** X9.  A run writes nothing but display names: every object keeps its
    title, platform id, URLs and rank, and an object that neither snapshot
    lists is left as it was. *)
Theorem build_frame (h : heap) (today : NewsData.t)
    (yesterday : option NewsData.t) (max_items : Z) (r : ref) :
  let h' := (build_daily_unique_hotspots h today yesterday max_items).1 in
  same_content (h' r) (h r) ∧
  ((∀ e, e ∈ NewsData.items today → r ∉ e.2) →
   (∀ y e, yesterday = Some y → e ∈ NewsData.items y → r ∉ e.2) →
   h' r = h r).
Proof.
  intros h'. subst h'. unfold build_daily_unique_hotspots. cbn [fst].
  split; [apply unique_candidates_content|].
  intros Htoday Hyesterday. unfold unique_candidates. cbn [fst].
  destruct yesterday as [y|]; unfold yesterday_identities; cbn [fst].
  - rewrite flatten_news_unlisted by (intros e He; by apply (Hyesterday y)).
    by apply flatten_news_unlisted.
  - by apply flatten_news_unlisted.
Qed.

End LineExtras.

(** ** Trimming *)

Lemma rev_app_spec (a b : string) : String.rev_app a b = String.rev a +:+ b.
Proof.
  unfold String.rev. revert b. induction a as [|c a IH]; intros b; [done|].
  cbn [String.rev_app]. rewrite (IH (String c b)), (IH (String c "")).
  by rewrite str_app_assoc.
Qed.

Lemma rev_cons (c : ascii) (a : string) :
  String.rev (String c a) = String.rev a +:+ String c "".
Proof. unfold String.rev at 1. cbn [String.rev_app]. apply rev_app_spec. Qed.

Lemma rev_app_distr (a b : string) :
  String.rev (a +:+ b) = String.rev b +:+ String.rev a.
Proof.
  induction a as [|c a IH].
  - by rewrite str_app_nil, str_app_empty_r.
  - by rewrite str_app_cons, !rev_cons, IH, str_app_assoc.
Qed.

Lemma rev_involutive (a : string) : String.rev (String.rev a) = a.
Proof.
  induction a as [|c a IH]; [done|].
  by rewrite rev_cons, rev_app_distr, IH.
Qed.

Lemma lstrip_split (p : ascii → bool) (s : string) :
  ∃ a, s = a +:+ Py.lstrip_by p s ∧ all_chars p a = true.
Proof.
  induction s as [|c s (a & Ha & Hp)]; [by exists ""|].
  cbn [Py.lstrip_by]. destruct (p c) eqn:Hc.
  - exists (String c a). rewrite str_app_cons, <- Ha. split; [done|].
    cbn [all_chars]. by rewrite Hc, Hp.
  - by exists "".
Qed.

Lemma lstrip_begins (p : ascii → bool) (s : string) :
  begins_with p (Py.lstrip_by p s) = false.
Proof.
  induction s as [|c s IH]; [done|].
  cbn [Py.lstrip_by]. destruct (p c) eqn:Hc; [done|]. exact Hc.
Qed.

Lemma ends_with_snoc (p : ascii → bool) (a : string) (c : ascii) :
  ends_with p (a +:+ String c "") = p c.
Proof.
  induction a as [|x a IH]; [done|].
  rewrite str_app_cons. cbn [ends_with]. rewrite IH.
  by destruct a.
Qed.

Lemma ends_with_rev (p : ascii → bool) (s : string) :
  ends_with p (String.rev s) = begins_with p s.
Proof. destruct s as [|c s]; [done|]. by rewrite rev_cons, ends_with_snoc. Qed.

(** What [strip] returns neither begins nor ends with a character it
    strips. *)
Lemma strip_by_trimmed (p : ascii → bool) (s : string) :
  begins_with p (Py.strip_by p s) = false ∧ ends_with p (Py.strip_by p s) = false.
Proof.
  unfold Py.strip_by, Py.rstrip_by.
  set (t := Py.lstrip_by p s).
  split; [|by rewrite ends_with_rev, lstrip_begins].
  destruct (lstrip_split p (String.rev t)) as (a & Ha & _).
  apply (f_equal String.rev) in Ha.
  rewrite rev_involutive, rev_app_distr in Ha.
  pose proof (lstrip_begins p s) as Ht. fold t in Ht.
  destruct (String.rev (Py.lstrip_by p (String.rev t))) as [|c w]; [done|].
  rewrite Ha, str_app_cons in Ht. exact Ht.
Qed.

Lemma leading_slash_begins (s : string) :
  begins_with (λ c, bool_decide (c ∈ ["/"%char])) s = false → leading_slash s = false.
Proof.
  destruct s as [|c s]; [done|]. cbn [begins_with leading_slash].
  intros Hc. apply bool_decide_eq_false_1 in Hc.
  assert (c ≠ "/"%char) as Hne.
  { intros ->. apply Hc, elem_of_cons. by left. }
  destruct c as [[] [] [] [] [] [] [] []]; done.
Qed.

Lemma leading_slash_app (a b : string) :
  a ≠ "" → leading_slash (a +:+ b) = leading_slash a.
Proof. destruct a as [|c a]; [done|]. intros _. by rewrite str_app_cons. Qed.

Section TrimExtras.
Context {collaborators : Collaborators}.

(** X10.  The URL and the mobile URL of every line are trimmed: they
    neither begin nor end with a white-space character. *)
Theorem lines_trimmed (h : heap) (today : NewsData.t)
    (yesterday : option NewsData.t) (max_items : Z) (line : AiHotspotLine) :
  line ∈ (build_daily_unique_hotspots h today yesterday max_items).2.1 →
  begins_with Py.is_space (url line) = false ∧
  ends_with Py.is_space (url line) = false ∧
  begins_with Py.is_space (mobile_url line) = false ∧
  ends_with Py.is_space (mobile_url line) = false.
Proof.
  rewrite build_lines. cbv zeta. intros (nr & -> & _)%list_elem_of_fmap.
  unfold hotspot_line. cbn [url mobile_url]. unfold Py.strip.
  split; [apply strip_by_trimmed|]. split; [apply strip_by_trimmed|].
  split; apply strip_by_trimmed.
Qed.

End TrimExtras.

(** X15.  A prefix never makes the key absolute: when something is left of
    the prefix after trimming, the key does not begin with a slash, and it
    begins with the trimmed prefix. *)
Theorem prefix_no_leading_slash (prefix : option string) (date_str filename key : string) :
  let trimmed := Py.strip_chars ["/"%char] (Py.strip (default "" prefix)) in
  build_r2_key prefix date_str filename = Some key →
  trimmed ≠ "" →
  leading_slash key = false ∧ ∃ rest, key = trimmed +:+ rest.
Proof.
  intros trimmed Hkey Hne. unfold build_r2_key in Hkey. fold trimmed in Hkey.
  destruct (Py.unpack3 _) as [[[y m] d]|]; [|done].
  cbn [mbind option_bind] in Hkey. cbv zeta in Hkey.
  assert (leading_slash trimmed = false) as Htrim.
  { apply leading_slash_begins. subst trimmed. unfold Py.strip_chars.
    apply strip_by_trimmed. }
  change (List.filter Py.truthy [trimmed; y; m; d; filename])
    with (if Py.truthy trimmed
          then trimmed :: List.filter Py.truthy [y; m; d; filename]
          else List.filter Py.truthy [y; m; d; filename]) in Hkey.
  rewrite (proj2 (truthy_spec trimmed) Hne) in Hkey.
  destruct (List.filter Py.truthy [y; m; d; filename]) as [|q qs];
    cbn [Py.join] in Hkey; injection Hkey as <-.
  - split; [done|]. exists "". by rewrite str_app_empty_r.
  - split; [by rewrite leading_slash_app|]. by eexists.
Qed.

(** ** Reading a rendered line *)

Lemma uint_no_dot (d : Decimal.uint) :
  Py.count "." (NilEmpty.string_of_uint d) = 0%nat.
Proof. induction d; simpl; done. Qed.

Lemma str_of_int_no_dot (n : Z) : Py.count "." (Py.str_of_int n) = 0%nat.
Proof.
  unfold Py.str_of_int, NilZero.string_of_int, NilZero.string_of_uint.
  destruct (Z.to_int n) as [d|d]; destruct d; simpl; try done; apply uint_no_dot.
Qed.

(** [int(str(n)) == n] *)
Lemma parse_int_str (n : Z) : parse_int (Py.str_of_int n) = Some n.
Proof.
  unfold parse_int, Py.str_of_int.
  rewrite NilZero.isi.
  - cbn. by rewrite DecimalZ.of_to.
  - destruct n as [|p|p]; simpl; try done.
    intros [= Hp]. by apply Unsigned.to_uint_nonnil in Hp.
  - destruct n as [|p|p]; simpl; try done.
    intros [= Hp]. by apply Unsigned.to_uint_nonnil in Hp.
Qed.

Lemma front_app (a r b : string) :
  (a +:+ String "." r) +:+ b = a +:+ String "." (r +:+ b).
Proof. by rewrite str_app_assoc, str_app_cons. Qed.

Lemma body_line_front (it : AiHotspotLine) :
  ∃ rest, body_line it = Py.str_of_int (idx it) +:+ String "." rest.
Proof.
  unfold body_line.
  change (". [platform=" +:+ platform_name it +:+ "] [platform_id="
          +:+ platform_id it +:+ "] " +:+ title it)
    with (String "." (" [platform=" +:+ platform_name it +:+ "] [platform_id="
          +:+ platform_id it +:+ "] " +:+ title it)).
  destruct (Py.truthy (url it)), (Py.truthy (mobile_url it)),
    (negb (rank it =? 0)); cbv zeta; rewrite ?front_app; by eexists.
Qed.

(** X11.  The index of a line can be read back from its rendered text:
    the number in front of the first dot of the body line is [idx]. *)
Theorem index_read_back (it : AiHotspotLine) :
  parse_idx (body_line it) = Some (idx it).
Proof.
  destruct (body_line_front it) as [rest ->]. unfold parse_idx.
  rewrite split_app_sep by apply str_of_int_no_dot.
  cbn [head mbind option_bind]. apply parse_int_str.
Qed.

(** ** The date in the key *)

Lemma split_cons_inv (sep : ascii) (n : nat) (s y m : string) (rest : list string) :
  Py.split sep (S n) s = y :: m :: rest →
  Py.count sep y = 0%nat ∧
  ∃ s', s = y +:+ String sep s' ∧ Py.split sep n s' = m :: rest.
Proof.
  revert y. induction s as [|c s IH]; intros y Hs; [done|].
  cbn [Py.split] in Hs. destruct (Ascii.eqb_spec c sep) as [->|Hne].
  - injection Hs as <- Hs. split; [done|]. by exists s.
  - destruct (Py.split sep (S n) s) as [|piece rest'] eqn:Hsplit; [done|].
    injection Hs as <- ->.
    destruct (IH piece eq_refl) as (Hc & s' & -> & Hs').
    split.
    + cbn [Py.count]. by rewrite (proj2 (Ascii.eqb_neq c sep) Hne), Hc.
    + exists s'. by rewrite str_app_cons.
Qed.

(** X13.  When [build_r2_key] succeeds the date is cut at its first two
    dashes: the year and the month hold no dash, the day is all that
    follows the second dash, and the key joins the trimmed prefix, these
    three and the file name, the empty ones left out. *)
Theorem key_unpacking (prefix : option string) (date_str filename key : string) :
  build_r2_key prefix date_str filename = Some key →
  ∃ y m d : string,
    date_str = y +:+ "-" +:+ m +:+ "-" +:+ d ∧
    Py.count "-" y = 0%nat ∧ Py.count "-" m = 0%nat ∧
    key = Py.join "/" (List.filter Py.truthy
            [Py.strip_chars ["/"%char] (Py.strip (default "" prefix)); y; m; d; filename]).
Proof.
  unfold build_r2_key.
  destruct (Py.split "-" 2 date_str) as [|y [|m [|d [|e l]]]] eqn:Hsplit; try done.
  cbn [Py.unpack3 mbind option_bind]. cbv zeta. intros [= <-].
  destruct (split_cons_inv _ _ _ _ _ _ Hsplit) as (Hy & s1 & -> & Hs1).
  destruct (split_cons_inv _ _ _ _ _ _ Hs1) as (Hm & s2 & -> & Hs2).
  rewrite split_zero in Hs2. injection Hs2 as <-.
  by exists y, m, s2.
Qed.

(** X14.  The date and the file name can be read back from the key: for a
    date of three strings of digits and a plain file name, the segments of
    the key are those of the trimmed prefix followed by the year, the
    month, the day and the file name. *)
Theorem key_round_trip (prefix : option string) (Y M D filename : string) :
  digits Y = true → digits M = true → digits D = true → plain filename = true →
  let trimmed := Py.strip_chars ["/"%char] (Py.strip (default "" prefix)) in
  ∃ key,
    build_r2_key prefix (Y +:+ "-" +:+ M +:+ "-" +:+ D) filename = Some key ∧
    Py.split_all "/" key
    = (if Py.truthy trimmed then Py.split_all "/" trimmed else [])
      ++ [Y; M; D; filename].
Proof.
  intros HY HM HD Hf trimmed.
  assert (∀ s, plain s = true → Py.truthy s = true ∧ Py.split_all "/" s = [s]) as Hplain.
  { intros s Hs. destruct (plain_spec s Hs) as (Hne & _ & Hc).
    split; [by apply truthy_spec|]. unfold Py.split_all. by apply split_no_sep. }
  destruct (Hplain Y (digits_plain Y HY)) as [HtY HsY].
  destruct (Hplain M (digits_plain M HM)) as [HtM HsM].
  destruct (Hplain D (digits_plain D HD)) as [HtD HsD].
  destruct (Hplain filename Hf) as [Htf Hsf].
  unfold build_r2_key. fold trimmed.
  rewrite split_date by (by apply digits_no_dash).
  cbn [Py.unpack3 mbind option_bind]. cbv zeta.
  change (List.filter Py.truthy [trimmed; Y; M; D; filename])
    with (if Py.truthy trimmed
          then trimmed :: List.filter Py.truthy [Y; M; D; filename]
          else List.filter Py.truthy [Y; M; D; filename]).
  assert (List.filter Py.truthy [Y; M; D; filename] = [Y; M; D; filename]) as ->.
  { cbn [List.filter]. by rewrite HtY, HtM, HtD, Htf. }
  eexists. split; [reflexivity|].
  destruct (Py.truthy trimmed).
  - rewrite (split_all_join "/") by done.
    cbn [fmap list_fmap concat]. by rewrite HsY, HsM, HsD, Hsf, app_nil_r.
  - rewrite (split_all_join "/") by done.
    cbn [fmap list_fmap concat]. by rewrite HsY, HsM, HsD, Hsf.
Qed.

Section NameExtras.
Context {collaborators : Collaborators}.

(** X16.  A line with a platform id has a platform name: the name falls
    back to the platform id of the item when the flattener resolved an
    empty one. *)
Theorem platform_name_present (h : heap) (today : NewsData.t)
    (yesterday : option NewsData.t) (max_items : Z) (line : AiHotspotLine) :
  line ∈ (build_daily_unique_hotspots h today yesterday max_items).2.1 →
  platform_id line ≠ "" →
  platform_name line ≠ "".
Proof.
  rewrite build_lines. cbv zeta. intros (nr & -> & _)%list_elem_of_fmap.
  unfold hotspot_line. cbn [platform_id platform_name].
  unfold Py.or_else. intros Hid.
  destruct (Py.truthy (NewsItem.source_name _)) eqn:Hname; [|done].
  by apply truthy_spec.
Qed.

End NameExtras.

(** ** The further properties on concrete inputs *)

Lemma identity_kinds_disjoint_witness :
  Py.strip (default "" (NewsItem.url (sample_heap 0%nat))) ≠ "" ∧
  Py.strip (default "" (NewsItem.url (sample_heap 1%nat))) = "" ∧
  _item_identity (sample_heap 0%nat) ≠ _item_identity (sample_heap 1%nat).
Proof.
  assert (Py.strip (default "" (NewsItem.url (sample_heap 0%nat))) ≠ "") as Ha by done.
  split; [exact Ha|]. split; [reflexivity|].
  exact (identity_kinds_disjoint (sample_heap 0%nat) (sample_heap 1%nat) Ha eq_refl).
Defined.

Lemma best_duplicate_survives_witness :
  1%nat ∈ (unique_candidates sample_heap sample_today None).2 ∧
  2%nat ∈ (_flatten_news sample_heap sample_today (NewsData.id_to_name sample_today)).2 ∧
  _item_identity (sample_heap 2%nat) = _item_identity (sample_heap 1%nat) ∧
  tuple_le (sort_key (sample_heap 1%nat)) (sort_key (sample_heap 2%nat)).
Proof.
  assert (1%nat ∈ (unique_candidates sample_heap sample_today None).2) as Hc.
  { apply (list_elem_of_lookup_2 _ 0%nat). reflexivity. }
  assert (2%nat ∈ (_flatten_news sample_heap sample_today
                     (NewsData.id_to_name sample_today)).2) as Hx.
  { apply (list_elem_of_lookup_2 _ 3%nat). reflexivity. }
  split; [exact Hc|]. split; [exact Hx|]. split; [reflexivity|].
  exact (best_duplicate_survives sample_heap sample_today None 1%nat 2%nat
           Hc Hx eq_refl).
Defined.

Lemma line_contents_witness :
  let line := mk_AiHotspotLine 2 "zhihu" "zhihu" "Delta" "http://x.com/d" "" 3 in
  (build_daily_unique_hotspots sample_heap sample_today (Some sample_yesterday) 2).2.1
    !! 1%nat = Some line ∧
  ∃ (r : ref) (e : string * list ref),
    (unique_candidates sample_heap sample_today (Some sample_yesterday)).2 !! 1%nat
    = Some r ∧
    last_listing (NewsData.items sample_today) r = Some e ∧
    platform_name line
    = Py.or_else (Some (resolve_name (NewsData.id_to_name sample_today) sample_today e.1))
        (NewsItem.source_id (sample_heap r)).
Proof.
  intros line.
  assert ((build_daily_unique_hotspots sample_heap sample_today
             (Some sample_yesterday) 2).2.1 !! 1%nat = Some line) as Hlookup
    by reflexivity.
  split; [exact Hlookup|].
  destruct (line_contents sample_heap sample_today (Some sample_yesterday) 2 1%nat line
              Hlookup) as (r & e & Hr & He & Hline).
  exists r, e. split; [exact Hr|]. split; [exact He|].
  by rewrite Hline.
Defined.

Lemma build_frame_witness :
  let h' := (build_daily_unique_hotspots sample_heap sample_today
               (Some sample_yesterday) 2).1 in
  (∀ e, e ∈ NewsData.items sample_today → 7%nat ∉ e.2) ∧
  (∀ y e, Some sample_yesterday = Some y → e ∈ NewsData.items y → 7%nat ∉ e.2) ∧
  h' 7%nat = sample_heap 7%nat.
Proof.
  intros h'.
  assert (∀ e, e ∈ NewsData.items sample_today → 7%nat ∉ e.2) as Htoday.
  { intros e He Hin. cbn in He.
    repeat (apply elem_of_cons in He as [->|He]);
      try (apply list_elem_of_In in Hin; cbn in Hin; intuition discriminate).
    by apply elem_of_nil in He. }
  assert (∀ y e, Some sample_yesterday = Some y → e ∈ NewsData.items y → 7%nat ∉ e.2)
    as Hyesterday.
  { intros y e [= <-] He Hin. cbn in He.
    repeat (apply elem_of_cons in He as [->|He]);
      try (apply list_elem_of_In in Hin; cbn in Hin; intuition discriminate).
    by apply elem_of_nil in He. }
  split; [exact Htoday|]. split; [exact Hyesterday|].
  exact (proj2 (build_frame sample_heap sample_today (Some sample_yesterday) 2 7%nat)
           Htoday Hyesterday).
Defined.

Lemma lines_trimmed_witness :
  let lines := (build_daily_unique_hotspots sample_heap sample_today None 0).2.1 in
  let line := mk_AiHotspotLine 4 "zhihu" "zhihu" "Gamma" "http://x.com/g" "" 1000 in
  NewsItem.url (sample_heap 3%nat) = Some " http://x.com/g " ∧
  line ∈ lines ∧
  begins_with Py.is_space (url line) = false ∧
  ends_with Py.is_space (url line) = false.
Proof.
  intros lines line.
  assert (line ∈ lines) as Hin.
  { apply (list_elem_of_lookup_2 _ 3%nat). reflexivity. }
  split; [reflexivity|]. split; [exact Hin|].
  destruct (lines_trimmed sample_heap sample_today None 0 line Hin) as (Hb & He & _).
  split; [exact Hb|exact He].
Defined.

Lemma platform_name_present_witness :
  let lines := (build_daily_unique_hotspots sample_heap sample_today None 0).2.1 in
  let line := mk_AiHotspotLine 4 "zhihu" "zhihu" "Gamma" "http://x.com/g" "" 1000 in
  line ∈ lines ∧ platform_id line ≠ "" ∧ platform_name line ≠ "".
Proof.
  intros lines line.
  assert (line ∈ lines) as Hin.
  { apply (list_elem_of_lookup_2 _ 3%nat). reflexivity. }
  assert (platform_id line ≠ "") as Hid by done.
  split; [exact Hin|]. split; [exact Hid|].
  exact (platform_name_present sample_heap sample_today None 0 line Hin Hid).
Defined.

Lemma key_unpacking_witness :
  build_r2_key None "2024-01-15-rerun" "hotspots.txt"
  = Some "2024/01/15-rerun/hotspots.txt" ∧
  ∃ y m d : string,
    "2024-01-15-rerun" = y +:+ "-" +:+ m +:+ "-" +:+ d ∧
    Py.count "-" y = 0%nat ∧ Py.count "-" m = 0%nat.
Proof.
  split; [reflexivity|].
  destruct (key_unpacking None "2024-01-15-rerun" "hotspots.txt"
              "2024/01/15-rerun/hotspots.txt" eq_refl) as (y & m & d & Hd & Hy & Hm & _).
  by exists y, m, d.
Defined.

Lemma key_round_trip_witness :
  digits "2024" = true ∧ digits "01" = true ∧ digits "15" = true ∧
  plain "hotspots.txt" = true ∧
  ∃ key,
    build_r2_key (Some " /exports/ai/ ") "2024-01-15" "hotspots.txt" = Some key ∧
    Py.split_all "/" key = ["exports"; "ai"; "2024"; "01"; "15"; "hotspots.txt"].
Proof.
  repeat (split; [reflexivity|]).
  exact (key_round_trip (Some " /exports/ai/ ") "2024" "01" "15" "hotspots.txt"
           eq_refl eq_refl eq_refl eq_refl).
Defined.

Lemma prefix_no_leading_slash_witness :
  build_r2_key (Some " /exports/ai/ ") "2024-01-15" "hotspots.txt"
  = Some "exports/ai/2024/01/15/hotspots.txt" ∧
  Py.strip_chars ["/"%char] (Py.strip (default "" (Some " /exports/ai/ "))) ≠ "" ∧
  leading_slash "exports/ai/2024/01/15/hotspots.txt" = false.
Proof.
  assert (Py.strip_chars ["/"%char] (Py.strip (default "" (Some " /exports/ai/ "))) ≠ "")
    as Hne by done.
  split; [reflexivity|]. split; [exact Hne|].
  exact (proj1 (prefix_no_leading_slash (Some " /exports/ai/ ") "2024-01-15"
                  "hotspots.txt" "exports/ai/2024/01/15/hotspots.txt" eq_refl Hne)).
Defined.

(** ** The lines of the rendered text *)

Lemma count_app (c : ascii) (a b : string) :
  Py.count c (a +:+ b) = (Py.count c a + Py.count c b)%nat.
Proof.
  induction a as [|x a IH]; [done|].
  rewrite str_app_cons. cbn [Py.count]. rewrite IH. lia.
Qed.

Lemma count_join (c : ascii) (l : list string) :
  (∀ s, s ∈ l → Py.count c s = 0%nat) →
  Py.count c (Py.join (String c "") l) = Nat.pred (length l).
Proof.
  induction l as [|s l IH]; intros Hl; [done|].
  destruct l as [|s' l].
  - cbn. apply Hl, elem_of_cons. by left.
  - change (Py.join (String c "") (s :: s' :: l))
      with (s +:+ String c (Py.join (String c "") (s' :: l))).
    rewrite count_app. cbn [Py.count]. rewrite Ascii.eqb_refl.
    rewrite IH by (intros t Ht; apply Hl, elem_of_cons; by right).
    rewrite (Hl s) by (apply elem_of_cons; by left). cbn [length]. lia.
Qed.

Lemma uint_count (c : ascii) (d : Decimal.uint) :
  is_digit c = false → Py.count c (NilEmpty.string_of_uint d) = 0%nat.
Proof.
  intros Hc. induction d; cbn [NilEmpty.string_of_uint Py.count]; [done|..];
    rewrite IHd;
    match goal with
    | |- ((if Ascii.eqb ?x c then _ else _) + _)%nat = _ =>
        destruct (Ascii.eqb_spec x c) as [<-|]; [done|done]
    end.
Qed.

Lemma str_of_int_count (c : ascii) (n : Z) :
  is_digit c = false → c ≠ "-"%char → Py.count c (Py.str_of_int n) = 0%nat.
Proof.
  intros Hc Hdash.
  assert (Py.count c "0" = 0%nat) as Hzero.
  { cbn [Py.count]. destruct (Ascii.eqb_spec "0" c) as [<-|]; [by vm_compute in Hc|done]. }
  unfold Py.str_of_int, NilZero.string_of_int, NilZero.string_of_uint.
  destruct (Z.to_int n) as [d|d].
  - destruct d; try apply uint_count; done.
  - cbn [Py.count]. rewrite (proj2 (Ascii.eqb_neq "-" c)) by done.
    destruct d; try apply uint_count; done.
Qed.

Lemma zero_padded_count (c : ascii) (width n : nat) :
  is_digit c = false → c ≠ "-"%char → Py.count c (zero_padded width n) = 0%nat.
Proof.
  intros Hc Hdash. unfold zero_padded. rewrite count_app, str_of_int_count by done.
  generalize (width - String.length (Py.str_of_int (Z.of_nat n)))%nat as k.
  intros k. rewrite Nat.add_0_r. induction k as [|k IH]; [done|].
  cbn [replicate String.concat]. destruct (replicate k "0") as [|z zs] eqn:Hk.
  - cbn [String.concat Py.count].
    destruct (Ascii.eqb_spec "0" c) as [<-|]; [by vm_compute in Hc|done].
  - rewrite count_app, str_app_nil, IH. cbn [Py.count].
    destruct (Ascii.eqb_spec "0" c) as [<-|]; [by vm_compute in Hc|done].
Qed.

Lemma strftime_count (c : ascii) (t : datetime) :
  is_digit c = false → c ≠ "-"%char → c ≠ " "%char → c ≠ ":"%char →
  Py.count c (strftime t) = 0%nat.
Proof.
  intros Hc Hdash Hsp Hcol. unfold strftime.
  rewrite !count_app, !zero_padded_count by done.
  cbn [Py.count].
  rewrite (proj2 (Ascii.eqb_neq "-" c)), (proj2 (Ascii.eqb_neq " " c)),
    (proj2 (Ascii.eqb_neq ":" c)) by done.
  done.
Qed.

Lemma body_line_count (it : AiHotspotLine) :
  Py.count "010" (platform_name it) = 0%nat →
  Py.count "010" (platform_id it) = 0%nat →
  Py.count "010" (title it) = 0%nat →
  Py.count "010" (url it) = 0%nat →
  Py.count "010" (mobile_url it) = 0%nat →
  Py.count "010" (body_line it) = 0%nat.
Proof.
  intros Hn Hi Ht Hu Hm. unfold body_line.
  destruct (Py.truthy (url it)), (Py.truthy (mobile_url it)), (negb (rank it =? 0));
    cbv zeta; rewrite !count_app, ?str_of_int_count, ?Hn, ?Hi, ?Ht, ?Hu, ?Hm by done;
    reflexivity.
Qed.

(** X17.  The rendered text is made of lines: when neither the date, the
    label of the compared day nor a field of an item holds a line break,
    the text has eight header lines, one more with the label, and one line
    per item, each ended by a line break. *)
Theorem render_line_count (lines : list AiHotspotLine) (date_str : string)
    (generated_at : datetime) (dedupe_against_date : option string)
    (total_candidates : Z) :
  Py.count "010" date_str = 0%nat →
  (∀ d, dedupe_against_date = Some d → Py.count "010" d = 0%nat) →
  (∀ it, it ∈ lines →
     Py.count "010" (platform_name it) = 0%nat ∧
     Py.count "010" (platform_id it) = 0%nat ∧
     Py.count "010" (title it) = 0%nat ∧
     Py.count "010" (url it) = 0%nat ∧
     Py.count "010" (mobile_url it) = 0%nat) →
  Py.count "010" (render_ai_hotspots_text lines date_str generated_at
                    dedupe_against_date total_candidates)
  = (8 + (if Py.truthy (default "" dedupe_against_date) then 1 else 0)
     + length lines)%nat.
Proof.
  intros Hdate Hlabel Hlines. unfold render_ai_hotspots_text. cbv zeta.
  rewrite count_app. cbn [Py.count]. rewrite Ascii.eqb_refl.
  assert (∀ s, s ∈ body_line <$> lines → Py.count "010" s = 0%nat) as Hbody.
  { intros s (it & -> & Hit)%list_elem_of_fmap.
    destruct (Hlines it Hit) as (? & ? & ? & ? & ?). by apply body_line_count. }
  assert (Py.count "010" ("- date: " +:+ date_str) = 0%nat) as Hd
    by (by rewrite count_app, Hdate).
  assert (Py.count "010" ("- generated_at: " +:+ strftime generated_at) = 0%nat) as Hg
    by (by rewrite count_app, strftime_count).
  assert (Py.count "010" ("- candidates_after_dedupe: "
                          +:+ Py.str_of_int total_candidates) = 0%nat) as Hc
    by (by rewrite count_app, str_of_int_count).
  assert (Py.count "010" ("- exported_count: "
                          +:+ Py.str_of_int (Z.of_nat (length lines))) = 0%nat) as He
    by (by rewrite count_app, str_of_int_count).
  destruct dedupe_against_date as [d|]; [destruct (Py.truthy d) eqn:Hd'|];
    cbn [default from_option id Py.truthy]; rewrite ?Hd';
    (rewrite count_join;
     [rewrite !length_app, length_fmap; cbn [length]; lia|]);
    intros s Hs; rewrite !elem_of_app, !elem_of_cons, elem_of_nil in Hs;
    repeat match goal with
           | H : _ ∨ _ |- _ => destruct H as [H|H]
           end;
    try (subst s; first [assumption|reflexivity]);
    try (by apply Hbody); try done.
  subst s. rewrite count_app, (Hlabel d eq_refl). reflexivity.
Qed.

Lemma render_line_count_witness :
  let line := mk_AiHotspotLine 1 "weibo" "Weibo" "Beta" "" "" 1 in
  Py.count "010" "2024-01-15" = 0%nat ∧
  Py.count "010" (render_ai_hotspots_text [line] "2024-01-15"
                    (mk_datetime 2024 1 15 8 30 0) (Some "2024-01-14") 3) = 10%nat.
Proof.
  intros line. split; [reflexivity|].
  apply (render_line_count [line] "2024-01-15" (mk_datetime 2024 1 15 8 30 0)
           (Some "2024-01-14") 3).
  - reflexivity.
  - by intros d [= <-].
  - intros it ->%list_elem_of_singleton. repeat split; reflexivity.
Defined.
